(** * The rollout reconciliation context (rollout/context.go)

    A shallow embedding of the methods of [rolloutContext] and of the
    rollback window described in docs/features/rollback.md, together with
    the properties the specification states about them.

    Conventions of the embedding:
    - a Go [map[string]string] is a [gmap string string]; a nil map reads
      like the empty one, so both are [∅];
    - a Go pointer that the code tests against nil, or that may be nil
      when it is dereferenced, is an [option]; a nil dereference is a
      runtime panic, the [None] outcome of a computation;
    - [c.rollout] and the elements of the slices of the context are
      objects handed over by the listers; they are never nil and are
      plain values;
    - an embedded struct ([metav1.ObjectMeta]) is a record field that is
      also a coercion, so that [metav1.Name rs] reads like Go's [rs.Name];
    - a method with receiver [c *rolloutContext] is a computation in the
      state monad [M] over the context;
    - structs of other packages are cut down to the fields that matter
      here and a few more that stand for the rest. *)

From Stdlib Require Import ZArith String.
From stdpp Require Import base option list gmap strings fin_maps.

Local Open Scope Z_scope.
Local Open Scope string_scope.

(** ** Errors (package fmt / errors) *)

(** A Go [error]: either a plain message, or the value built by
    [fmt.Errorf] with the verb [%w], which keeps the formatted message and
    the wrapped error. *)
Inductive error : Type :=
| errorString (s : string)
| wrapError (msg : string) (err : error).

Definition Error (e : error) : string :=
  match e with
  | errorString s => s
  | wrapError msg _ => msg
  end.

Definition Unwrap (e : error) : option error :=
  match e with
  | errorString _ => None
  | wrapError _ err => Some err
  end.

(** [fmt.Errorf(prefix + " %s: %w", name, err)] *)
Definition Errorf (prefix name : string) (err : error) : error :=
  wrapError (prefix +:+ " " +:+ name +:+ ": " +:+ Error err) err.

(** [s] occurs in [msg]. *)
Definition carries (msg s : string) : Prop :=
  ∃ pre suf : string, msg = pre +:+ s +:+ suf.

(** ** k8s.io/apimachinery/pkg/apis/meta/v1 *)
Module metav1.

Record ObjectMeta : Type := mkObjectMeta {
  Name : string;
  Namespace : string;
  UID : string;
  ResourceVersion : string;
  Generation : Z;
  Labels : gmap string string;
  Annotations : gmap string string;
  OwnerReferences : list string;
  Finalizers : list string
}.

(** the zero value [metav1.ObjectMeta{}] *)
Definition ObjectMeta_zero : ObjectMeta :=
  mkObjectMeta "" "" "" "" 0 ∅ ∅ [] [].

Record LabelSelector : Type := mkLabelSelector {
  MatchLabels : gmap string string;
  MatchExpressions : list (string * string * list string)
}.

End metav1.

(** ** k8s.io/api/apps/v1 *)
Module appsv1.

Record PodSpec : Type := mkPodSpec {
  Containers : list string;
  NodeName : string
}.

Definition PodSpec_zero : PodSpec := mkPodSpec [] "".

Record PodTemplateSpec : Type := mkPodTemplateSpec {
  Template_ObjectMeta : metav1.ObjectMeta;
  Template_Spec : PodSpec
}.

Record ReplicaSetSpec : Type := mkReplicaSetSpec {
  Replicas : option Z;                       (* *int32 *)
  MinReadySeconds : Z;
  Selector : option metav1.LabelSelector;    (* *metav1.LabelSelector *)
  Template : PodTemplateSpec
}.

Record ReplicaSetStatus : Type := mkReplicaSetStatus {
  Status_Replicas : Z;
  ReadyReplicas : Z;
  AvailableReplicas : Z;
  ObservedGeneration : Z
}.

Definition ReplicaSetStatus_zero : ReplicaSetStatus :=
  mkReplicaSetStatus 0 0 0 0.

Record ReplicaSet : Type := mkReplicaSet {
  ObjectMeta : metav1.ObjectMeta;
  Spec : ReplicaSetSpec;
  Status : ReplicaSetStatus
}.

(** the zero value [appsv1.ReplicaSet{}] *)
Definition ReplicaSet_zero : ReplicaSet :=
  mkReplicaSet metav1.ObjectMeta_zero
    (mkReplicaSetSpec None 0 None
       (mkPodTemplateSpec metav1.ObjectMeta_zero PodSpec_zero))
    ReplicaSetStatus_zero.

End appsv1.

(** Go's embedding: the fields of the embedded [ObjectMeta] are read
    directly on the object. *)
Coercion appsv1.ObjectMeta : appsv1.ReplicaSet >-> metav1.ObjectMeta.
Coercion appsv1.Template_ObjectMeta : appsv1.PodTemplateSpec >-> metav1.ObjectMeta.

(** ** Constants declared outside rollout/context.go

    The keys and the pause reason below are constants of the packages
    [v1alpha1] and [annotations], whose declarations are not part of the
    sources at hand.  They are taken as parameters: every theorem holds
    whatever strings they are. *)
Class Constants : Type := mkConstants {
  (* v1alpha1.DefaultRolloutUniqueLabelKey *)
  DefaultRolloutUniqueLabelKey : string;
  (* v1alpha1.DefaultReplicaSetScaleDownDeadlineAnnotationKey *)
  DefaultReplicaSetScaleDownDeadlineAnnotationKey : string;
  (* v1alpha1.ReplicaSetFinalStatusKey *)
  ReplicaSetFinalStatusKey : string;
  (* annotations.RolloutLabel *)
  RolloutLabel : string;
  (* v1alpha1.PauseReasonInconclusiveAnalysis *)
  PauseReasonInconclusiveAnalysis : string
}.

(** ** The patch generator *)
Section PatchGenerator.
Context `{Constants}.

(** The condition of the two [for ... range] loops of
    [generateBasePatch]: [strings.HasPrefix] against the three
    controller-owned prefixes. *)
Definition hasOwnedPrefix (key : string) : bool :=
  String.prefix RolloutLabel key
  || String.prefix "argo-rollouts.argoproj.io" key
  || String.prefix "experiment.argoproj.io" key.

(** [if _, found := src[key]; found { dst[key] = src[key] }] *)
Definition copyKey (key : string) (src dst : gmap string string)
  : gmap string string :=
  match src !! key with
  | Some value => <[key := value]> dst
  | None => dst
  end.

(** [for key, value := range src { if <owned prefix> { dst[key] = value } }] *)
Definition copyOwned (src dst : gmap string string) : gmap string string :=
  map_fold (λ key value acc,
              if hasOwnedPrefix key then <[key := value]> acc else acc)
           dst src.

(** [generateBasePatch]; the receiver is not used.  [rs] is a pointer,
    and so is [rs.Spec.Selector]: dereferencing either when it is nil
    panics. *)
Definition generateBasePatch (rs : option appsv1.ReplicaSet)
  : option appsv1.ReplicaSet :=
  rs ← rs;
  let rs := rs : appsv1.ReplicaSet in
  let patchAnnotations : gmap string string := ∅ in
  let patchLabels : gmap string string := ∅ in
  let patchMatchLabels : gmap string string := ∅ in
  let patchLabels :=
    copyKey DefaultRolloutUniqueLabelKey (metav1.Labels rs) patchLabels in
  let patchAnnotations :=
    copyKey DefaultReplicaSetScaleDownDeadlineAnnotationKey
            (metav1.Annotations rs) patchAnnotations in
  selector ← appsv1.Selector (appsv1.Spec rs);
  let patchMatchLabels :=
    copyKey DefaultRolloutUniqueLabelKey (metav1.MatchLabels selector)
            patchMatchLabels in
  let patchAnnotations := copyOwned (metav1.Annotations rs) patchAnnotations in
  let patchLabels := copyOwned (metav1.Labels rs) patchLabels in
  Some (appsv1.mkReplicaSet
          (metav1.mkObjectMeta "" "" "" "" 0 patchLabels patchAnnotations [] [])
          (appsv1.mkReplicaSetSpec
             (appsv1.Replicas (appsv1.Spec rs))
             0
             (Some (metav1.mkLabelSelector patchMatchLabels []))
             (appsv1.mkPodTemplateSpec
                (metav1.mkObjectMeta "" "" "" "" 0
                   (metav1.Labels (appsv1.Template (appsv1.Spec rs)))
                   (metav1.Annotations (appsv1.Template (appsv1.Spec rs)))
                   [] [])
                appsv1.PodSpec_zero))
          appsv1.ReplicaSetStatus_zero).

(** [patch.Annotations[key] = value] on a replica set value *)
Definition setAnnotation (key value : string) (rs : appsv1.ReplicaSet)
  : appsv1.ReplicaSet :=
  let meta := appsv1.ObjectMeta rs in
  appsv1.mkReplicaSet
    (metav1.mkObjectMeta
       (metav1.Name meta) (metav1.Namespace meta) (metav1.UID meta)
       (metav1.ResourceVersion meta) (metav1.Generation meta)
       (metav1.Labels meta)
       (<[key := value]> (metav1.Annotations meta))
       (metav1.OwnerReferences meta) (metav1.Finalizers meta))
    (appsv1.Spec rs) (appsv1.Status rs).

End PatchGenerator.

(** Strings for the constants, used where a statement is evaluated on a
    concrete replica set: the unique-label key, the scale-down-deadline
    key, the rollout label and the pause reason as upstream declares them
    (pkg/apis/rollouts/v1alpha1, utils/annotations); for the final-status
    key, a key under the controller's own prefix. *)
Definition upstreamConstants : Constants :=
  mkConstants "rollouts-pod-template-hash" "scale-down-deadline"
              "argo-rollouts.argoproj.io/final-status" "rollout.argoproj.io"
              "InconclusiveAnalysisRun".

Definition liveRS : appsv1.ReplicaSet :=
  appsv1.mkReplicaSet
    (metav1.mkObjectMeta "web-7d9c" "prod" "uid-1" "42" 3
       (list_to_map [("rollouts-pod-template-hash", "7d9c"); ("team", "web")])
       (list_to_map [("scale-down-deadline", "2026-01-01T00:00:00Z");
                     ("rollout.argoproj.io/revision", "4");
                     ("kubectl.kubernetes.io/last-applied", "x")])
       ["Rollout/web"] [])
    (appsv1.mkReplicaSetSpec (Some 3) 5
       (Some (metav1.mkLabelSelector
                (list_to_map [("rollouts-pod-template-hash", "7d9c"); ("app", "web")])
                []))
       (appsv1.mkPodTemplateSpec
          (metav1.mkObjectMeta "" "" "" "" 0
             (list_to_map [("app", "web")]) ∅ [] [])
          (appsv1.mkPodSpec ["web:1.0"] "")))
    (appsv1.mkReplicaSetStatus 3 3 3 3).


(** ** github.com/argoproj/argo-rollouts/pkg/apis/rollouts/v1alpha1

    One module per struct, so that fields keep their Go names. *)
Module v1alpha1.

Definition PauseReason : Type := string.
Definition AnalysisPhase : Type := string.

Module PauseCondition.
Record t : Type := mk { Reason : PauseReason; StartTime : Z }.
End PauseCondition.

Module AnalysisRunStatus.
Record t : Type := mk { Phase : AnalysisPhase; Message : string }.
End AnalysisRunStatus.

Module AnalysisRun.
Record t : Type := mk {
  ObjectMeta : metav1.ObjectMeta;
  Status : AnalysisRunStatus.t
}.
End AnalysisRun.

Module Experiment.
Record t : Type := mk {
  ObjectMeta : metav1.ObjectMeta;
  Phase : AnalysisPhase
}.
End Experiment.

Module RolloutAnalysisRunStatus.
Record t : Type := mk {
  Name : string;
  Status : AnalysisPhase;
  Message : string
}.
End RolloutAnalysisRunStatus.

Module CanaryStatus.
Record t : Type := mk {
  CurrentStepAnalysisRunStatus : option RolloutAnalysisRunStatus.t;
  CurrentBackgroundAnalysisRunStatus : option RolloutAnalysisRunStatus.t;
  CurrentExperiment : string
}.
End CanaryStatus.

Module BlueGreenStatus.
Record t : Type := mk {
  PreviewSelector : string;
  ActiveSelector : string;
  PrePromotionAnalysisRunStatus : option RolloutAnalysisRunStatus.t;
  PostPromotionAnalysisRunStatus : option RolloutAnalysisRunStatus.t
}.
End BlueGreenStatus.

Module RolloutStatus.
Record t : Type := mk {
  Abort : bool;
  PauseConditions : list PauseCondition.t;
  ControllerPause : bool;
  CurrentPodHash : string;
  CurrentStepIndex : option Z;               (* *int32 *)
  StableRS : string;
  RestartedAt : option Z;                    (* *metav1.Time *)
  Canary : CanaryStatus.t;
  BlueGreen : BlueGreenStatus.t
}.
End RolloutStatus.

Module BlueGreenStrategy.
Record t : Type := mk { ActiveService : string; PreviewService : string }.
End BlueGreenStrategy.

Module CanaryStrategy.
Record t : Type := mk { CanaryService : string; StableService : string }.
End CanaryStrategy.

Module RolloutStrategy.
Record t : Type := mk {
  BlueGreen : option BlueGreenStrategy.t;    (* *BlueGreenStrategy *)
  Canary : option CanaryStrategy.t           (* *CanaryStrategy *)
}.
End RolloutStrategy.

Module RolloutSpec.
Record t : Type := mk {
  Replicas : option Z;
  Paused : bool;
  Strategy : RolloutStrategy.t;
  RestartAt : option Z;
  RollbackWindow : option Z
}.
End RolloutSpec.

Module Rollout.
Record t : Type := mk {
  ObjectMeta : metav1.ObjectMeta;
  Spec : RolloutSpec.t;
  Status : RolloutStatus.t
}.
End Rollout.

End v1alpha1.

Coercion v1alpha1.AnalysisRun.ObjectMeta : v1alpha1.AnalysisRun.t >-> metav1.ObjectMeta.
Coercion v1alpha1.Experiment.ObjectMeta : v1alpha1.Experiment.t >-> metav1.ObjectMeta.
Coercion v1alpha1.Rollout.ObjectMeta : v1alpha1.Rollout.t >-> metav1.ObjectMeta.

(** ** github.com/argoproj/argo-rollouts/utils/analysis *)
Module analysisutil.

(** One pointer per trigger kind; nil when no run is current. *)
Record CurrentAnalysisRuns : Type := mkCurrentAnalysisRuns {
  BlueGreenPrePromotion : option v1alpha1.AnalysisRun.t;
  BlueGreenPostPromotion : option v1alpha1.AnalysisRun.t;
  CanaryStep : option v1alpha1.AnalysisRun.t;
  CanaryBackground : option v1alpha1.AnalysisRun.t
}.

End analysisutil.

(** ** The cluster, seen from the controller

    [kubeclientset] and [replicaSetInformer] are interface values; what
    stands behind them is not part of this package.  Each is modelled by
    the requests it has received so far, oldest first; how a request is
    answered is a parameter ([Cluster] below) that may depend on that
    history. *)
Record PatchAction : Type := mkPatchAction {
  action_Namespace : string;
  action_Name : string;
  action_PatchType : string;
  action_Data : string
}.

(** patchtypes.StrategicMergePatchType *)
Definition StrategicMergePatchType : string :=
  "application/strategic-merge-patch+json".

Record reconcilerBase : Type := mkReconcilerBase {
  kubeclientset : list PatchAction;
  replicaSetInformer : list (option appsv1.ReplicaSet)
}.

Class Cluster : Type := mkCluster {
  (* diff.CreateTwoWayMergePatch(orig, new, dataStruct) (patch, modified, err) *)
  CreateTwoWayMergePatch :
    appsv1.ReplicaSet → appsv1.ReplicaSet → appsv1.ReplicaSet →
    string * bool * option error;
  (* kubeclientset.AppsV1().ReplicaSets(ns).Patch(ctx, name, pt, data, opts),
     answered knowing the earlier requests *)
  ReplicaSets_Patch :
    list PatchAction → PatchAction → option appsv1.ReplicaSet * option error;
  (* replicaSetInformer.GetIndexer().Update(obj), answered knowing the
     earlier updates *)
  Indexer_Update :
    list (option appsv1.ReplicaSet) → option appsv1.ReplicaSet → option error
}.

(** ** Pause bookkeeping (rollout/pause.go, not part of the sources at hand) *)

(** Modelled from the spec: the [pauseContext] struct is missing; the spec
    describes the pause state machine as reasons that strategy branches
    add and that are removed when their trigger resolves.  No method of
    context.go reads or writes it. *)
Record pauseContext : Type := mkPauseContext {
  addPauseReasons : list v1alpha1.PauseReason;
  removePauseReasons : list v1alpha1.PauseReason
}.

(** Modelled from the spec: the helper [getPauseCondition] is missing; the
    rollout status holds a list of pause conditions {reason, start-time},
    zero or more of them active at once, and a reason is active when the
    list holds a condition with that reason.  The result is a pointer to
    (a copy of) the first such condition, nil when there is none. *)
Definition getPauseCondition (rollout : v1alpha1.Rollout.t)
    (reason : v1alpha1.PauseReason) : option v1alpha1.PauseCondition.t :=
  List.find
    (λ cond, bool_decide (v1alpha1.PauseCondition.Reason cond = reason))
    (v1alpha1.RolloutStatus.PauseConditions (v1alpha1.Rollout.Status rollout)).

(** ** rolloutContext *)
Record rolloutContext : Type := mkRolloutContext {
  base : reconcilerBase;                       (* the embedded reconcilerBase *)
  log : list string;                           (* lines written to c.log *)
  rollout : v1alpha1.Rollout.t;
  newRollout : option v1alpha1.Rollout.t;
  newRS : option appsv1.ReplicaSet;
  stableRS : option appsv1.ReplicaSet;
  allRSs : list appsv1.ReplicaSet;
  olderRSs : list appsv1.ReplicaSet;
  otherRSs : list appsv1.ReplicaSet;
  currentArs : analysisutil.CurrentAnalysisRuns;
  otherArs : list v1alpha1.AnalysisRun.t;
  currentEx : option v1alpha1.Experiment.t;
  otherExs : list v1alpha1.Experiment.t;
  newStatus : v1alpha1.RolloutStatus.t;
  pauseContext_ : option pauseContext;
  stepPluginContext : option (list string);
  targetsVerified : option bool
}.

(** Field assignments [c.f = v]. *)
Definition set_base (v : reconcilerBase) (c : rolloutContext) : rolloutContext :=
  mkRolloutContext v (log c) (rollout c) (newRollout c) (newRS c) (stableRS c)
    (allRSs c) (olderRSs c) (otherRSs c) (currentArs c) (otherArs c)
    (currentEx c) (otherExs c) (newStatus c) (pauseContext_ c)
    (stepPluginContext c) (targetsVerified c).

Definition set_log (v : list string) (c : rolloutContext) : rolloutContext :=
  mkRolloutContext (base c) v (rollout c) (newRollout c) (newRS c) (stableRS c)
    (allRSs c) (olderRSs c) (otherRSs c) (currentArs c) (otherArs c)
    (currentEx c) (otherExs c) (newStatus c) (pauseContext_ c)
    (stepPluginContext c) (targetsVerified c).

Definition set_currentArs (v : analysisutil.CurrentAnalysisRuns)
    (c : rolloutContext) : rolloutContext :=
  mkRolloutContext (base c) (log c) (rollout c) (newRollout c) (newRS c)
    (stableRS c) (allRSs c) (olderRSs c) (otherRSs c) v (otherArs c)
    (currentEx c) (otherExs c) (newStatus c) (pauseContext_ c)
    (stepPluginContext c) (targetsVerified c).

Definition set_currentEx (v : option v1alpha1.Experiment.t)
    (c : rolloutContext) : rolloutContext :=
  mkRolloutContext (base c) (log c) (rollout c) (newRollout c) (newRS c)
    (stableRS c) (allRSs c) (olderRSs c) (otherRSs c) (currentArs c)
    (otherArs c) v (otherExs c) (newStatus c) (pauseContext_ c)
    (stepPluginContext c) (targetsVerified c).

Definition set_otherExs (v : list v1alpha1.Experiment.t)
    (c : rolloutContext) : rolloutContext :=
  mkRolloutContext (base c) (log c) (rollout c) (newRollout c) (newRS c)
    (stableRS c) (allRSs c) (olderRSs c) (otherRSs c) (currentArs c)
    (otherArs c) (currentEx c) v (newStatus c) (pauseContext_ c)
    (stepPluginContext c) (targetsVerified c).

Definition set_newStatus (v : v1alpha1.RolloutStatus.t)
    (c : rolloutContext) : rolloutContext :=
  mkRolloutContext (base c) (log c) (rollout c) (newRollout c) (newRS c)
    (stableRS c) (allRSs c) (olderRSs c) (otherRSs c) (currentArs c)
    (otherArs c) (currentEx c) (otherExs c) v (pauseContext_ c)
    (stepPluginContext c) (targetsVerified c).

(** Assignments to the nested fields of [c.newStatus]. *)
Definition set_RestartedAt (v : option Z) (s : v1alpha1.RolloutStatus.t)
  : v1alpha1.RolloutStatus.t :=
  let open := v1alpha1.RolloutStatus.mk in
  open (v1alpha1.RolloutStatus.Abort s) (v1alpha1.RolloutStatus.PauseConditions s)
    (v1alpha1.RolloutStatus.ControllerPause s)
    (v1alpha1.RolloutStatus.CurrentPodHash s)
    (v1alpha1.RolloutStatus.CurrentStepIndex s) (v1alpha1.RolloutStatus.StableRS s)
    v (v1alpha1.RolloutStatus.Canary s) (v1alpha1.RolloutStatus.BlueGreen s).

Definition set_Canary (v : v1alpha1.CanaryStatus.t) (s : v1alpha1.RolloutStatus.t)
  : v1alpha1.RolloutStatus.t :=
  let open := v1alpha1.RolloutStatus.mk in
  open (v1alpha1.RolloutStatus.Abort s) (v1alpha1.RolloutStatus.PauseConditions s)
    (v1alpha1.RolloutStatus.ControllerPause s)
    (v1alpha1.RolloutStatus.CurrentPodHash s)
    (v1alpha1.RolloutStatus.CurrentStepIndex s) (v1alpha1.RolloutStatus.StableRS s)
    (v1alpha1.RolloutStatus.RestartedAt s) v (v1alpha1.RolloutStatus.BlueGreen s).

Definition set_BlueGreen (v : v1alpha1.BlueGreenStatus.t)
    (s : v1alpha1.RolloutStatus.t) : v1alpha1.RolloutStatus.t :=
  let open := v1alpha1.RolloutStatus.mk in
  open (v1alpha1.RolloutStatus.Abort s) (v1alpha1.RolloutStatus.PauseConditions s)
    (v1alpha1.RolloutStatus.ControllerPause s)
    (v1alpha1.RolloutStatus.CurrentPodHash s)
    (v1alpha1.RolloutStatus.CurrentStepIndex s) (v1alpha1.RolloutStatus.StableRS s)
    (v1alpha1.RolloutStatus.RestartedAt s) (v1alpha1.RolloutStatus.Canary s) v.

Definition set_CurrentExperiment (v : string) (s : v1alpha1.CanaryStatus.t)
  : v1alpha1.CanaryStatus.t :=
  v1alpha1.CanaryStatus.mk
    (v1alpha1.CanaryStatus.CurrentStepAnalysisRunStatus s)
    (v1alpha1.CanaryStatus.CurrentBackgroundAnalysisRunStatus s) v.

Definition set_CurrentBackgroundAnalysisRunStatus
    (v : option v1alpha1.RolloutAnalysisRunStatus.t)
    (s : v1alpha1.CanaryStatus.t) : v1alpha1.CanaryStatus.t :=
  v1alpha1.CanaryStatus.mk
    (v1alpha1.CanaryStatus.CurrentStepAnalysisRunStatus s) v
    (v1alpha1.CanaryStatus.CurrentExperiment s).

Definition set_CurrentStepAnalysisRunStatus
    (v : option v1alpha1.RolloutAnalysisRunStatus.t)
    (s : v1alpha1.CanaryStatus.t) : v1alpha1.CanaryStatus.t :=
  v1alpha1.CanaryStatus.mk v
    (v1alpha1.CanaryStatus.CurrentBackgroundAnalysisRunStatus s)
    (v1alpha1.CanaryStatus.CurrentExperiment s).

Definition set_PrePromotionAnalysisRunStatus
    (v : option v1alpha1.RolloutAnalysisRunStatus.t)
    (s : v1alpha1.BlueGreenStatus.t) : v1alpha1.BlueGreenStatus.t :=
  v1alpha1.BlueGreenStatus.mk
    (v1alpha1.BlueGreenStatus.PreviewSelector s)
    (v1alpha1.BlueGreenStatus.ActiveSelector s) v
    (v1alpha1.BlueGreenStatus.PostPromotionAnalysisRunStatus s).

Definition set_PostPromotionAnalysisRunStatus
    (v : option v1alpha1.RolloutAnalysisRunStatus.t)
    (s : v1alpha1.BlueGreenStatus.t) : v1alpha1.BlueGreenStatus.t :=
  v1alpha1.BlueGreenStatus.mk
    (v1alpha1.BlueGreenStatus.PreviewSelector s)
    (v1alpha1.BlueGreenStatus.ActiveSelector s)
    (v1alpha1.BlueGreenStatus.PrePromotionAnalysisRunStatus s) v.

(** ** The state monad of the methods

    A method runs on the context it receives and leaves the context it
    has updated, together with its result; [None] is a runtime panic. *)
Definition M (A : Type) : Type := rolloutContext → option (A * rolloutContext).

Definition ret {A : Type} (a : A) : M A := λ c, Some (a, c).

Definition bind {A B : Type} (m : M A) (k : A → M B) : M B :=
  λ c, match m c with
       | Some (a, c') => k a c'
       | None => None
       end.

Definition get : M rolloutContext := λ c, Some (c, c).

Definition modify (f : rolloutContext → rolloutContext) : M unit :=
  λ c, Some (tt, f c).

Definition panic {A : Type} : M A := λ _, None.

(** Reading through a pointer. *)
Definition deref {A : Type} (p : option A) : M A :=
  match p with
  | Some a => ret a
  | None => panic
  end.

Declare Scope go_scope.
Delimit Scope go_scope with go.
Notation "x <- m ;; k" := (bind m (λ x, k))
  (at level 100, m at next level, right associativity) : go_scope.
Notation "m ;; k" := (bind m (λ _, k))
  (at level 100, right associativity) : go_scope.
Local Open Scope go_scope.

(** [c.log.Infof(...)], with the line already formatted *)
Definition Infof (line : string) : M unit :=
  modify (λ c, set_log (log c ++ [line]) c).

(** ** The methods of context.go *)

Definition SetRestartedAt : M unit :=
  modify (λ c,
    set_newStatus
      (set_RestartedAt
         (v1alpha1.RolloutSpec.RestartAt (v1alpha1.Rollout.Spec (rollout c)))
         (newStatus c)) c).

(** [c.otherExs = append(c.otherExs[:i], c.otherExs[i+1:]...)] *)
Definition removeAt {A : Type} (i : nat) (l : list A) : list A :=
  take i l ++ drop (S i) l.

Definition SetCurrentExperiment (ex : option v1alpha1.Experiment.t) : M unit :=
  modify (set_currentEx ex) ;;
  ex <- deref ex ;;
  modify (λ c,
    set_newStatus
      (set_Canary
         (set_CurrentExperiment (metav1.Name (ex : v1alpha1.Experiment.t))
            (v1alpha1.RolloutStatus.Canary (newStatus c)))
         (newStatus c)) c) ;;
  c <- get ;;
  match list_find
          (λ otherEx : v1alpha1.Experiment.t,
             metav1.Name otherEx = metav1.Name (ex : v1alpha1.Experiment.t))
          (otherExs c) with
  | Some (i, _) =>
      Infof ("Rescued " +:+ metav1.Name (ex : v1alpha1.Experiment.t)
             +:+ " from inadvertent termination") ;;
      modify (λ c, set_otherExs (removeAt i (otherExs c)) c)
  | None => ret tt
  end.

(** [&v1alpha1.RolloutAnalysisRunStatus{Name: ..., Status: ..., Message: ...}] *)
Definition statusOf (ar : v1alpha1.AnalysisRun.t)
  : option v1alpha1.RolloutAnalysisRunStatus.t :=
  Some (v1alpha1.RolloutAnalysisRunStatus.mk
          (metav1.Name ar)
          (v1alpha1.AnalysisRunStatus.Phase (v1alpha1.AnalysisRun.Status ar))
          (v1alpha1.AnalysisRunStatus.Message (v1alpha1.AnalysisRun.Status ar))).

(** [if ar != nil { assign(&RolloutAnalysisRunStatus{...}) }] *)
Definition whenSet (ar : option v1alpha1.AnalysisRun.t)
    (assign : option v1alpha1.RolloutAnalysisRunStatus.t →
              v1alpha1.RolloutStatus.t → v1alpha1.RolloutStatus.t) : M unit :=
  match ar with
  | Some ar => modify (λ c, set_newStatus (assign (statusOf ar) (newStatus c)) c)
  | None => ret tt
  end.

Definition SetCurrentAnalysisRuns (currARs : analysisutil.CurrentAnalysisRuns)
  : M unit :=
  modify (set_currentArs currARs) ;;
  c <- get ;;
  let strategy :=
    v1alpha1.RolloutSpec.Strategy (v1alpha1.Rollout.Spec (rollout c)) in
  if v1alpha1.RolloutStrategy.Canary strategy is Some _ then
    whenSet (analysisutil.CanaryBackground currARs)
      (λ v s, set_Canary
                (set_CurrentBackgroundAnalysisRunStatus v
                   (v1alpha1.RolloutStatus.Canary s)) s) ;;
    whenSet (analysisutil.CanaryStep currARs)
      (λ v s, set_Canary
                (set_CurrentStepAnalysisRunStatus v
                   (v1alpha1.RolloutStatus.Canary s)) s)
  else if v1alpha1.RolloutStrategy.BlueGreen strategy is Some _ then
    whenSet (analysisutil.BlueGreenPrePromotion currARs)
      (λ v s, set_BlueGreen
                (set_PrePromotionAnalysisRunStatus v
                   (v1alpha1.RolloutStatus.BlueGreen s)) s) ;;
    whenSet (analysisutil.BlueGreenPostPromotion currARs)
      (λ v s, set_BlueGreen
                (set_PostPromotionAnalysisRunStatus v
                   (v1alpha1.RolloutStatus.BlueGreen s)) s)
  else ret tt.

Section WithConstants.
Context `{Constants}.

Definition haltProgress : M string :=
  c <- get ;;
  if v1alpha1.RolloutSpec.Paused (v1alpha1.Rollout.Spec (rollout c)) then
    ret "user paused"
  else if getPauseCondition (rollout c) PauseReasonInconclusiveAnalysis
          is Some _ then
    ret "inconclusive analysis"
  else ret "".

(** The result is a pointer to the local [patch]; it is never nil. *)
Definition generateRSFinalStatusPatch (status : string)
  : M appsv1.ReplicaSet :=
  c <- get ;;
  patch <- deref (generateBasePatch (newRS c)) ;;
  ret (setAnnotation ReplicaSetFinalStatusKey status patch).

Context `{Cluster}.

(** [return fmt.Errorf(prefix + " %s: %w", c.newRS.Name, err)] *)
Definition failWith (prefix : string) (err : error) : M (option error) :=
  c <- get ;;
  rs <- deref (newRS c) ;;
  ret (Some (Errorf prefix (metav1.Name (rs : appsv1.ReplicaSet)) err)).

Definition setFinalRSStatus (status : string) : M (option error) :=
  patchWithRSFinalStatus <- generateRSFinalStatusPatch status ;;
  let '(patch, _, err) :=
    CreateTwoWayMergePatch appsv1.ReplicaSet_zero patchWithRSFinalStatus
                           appsv1.ReplicaSet_zero in
  if err is Some err then
    failWith "error creating patch in setFinalRSStatus" err
  else
    Infof ("Patching replicaset with patch: " +:+ patch) ;;
    c <- get ;;
    let action :=
      mkPatchAction (metav1.Namespace patchWithRSFinalStatus)
                    (metav1.Name patchWithRSFinalStatus)
                    StrategicMergePatchType patch in
    let '(updatedRS, err) := ReplicaSets_Patch (kubeclientset (base c)) action in
    modify (λ c, set_base
                   (mkReconcilerBase (kubeclientset (base c) ++ [action])
                                     (replicaSetInformer (base c))) c) ;;
    if err is Some err then
      failWith "error patching replicaset in setFinalRSStatus" err
    else
      c <- get ;;
      let err := Indexer_Update (replicaSetInformer (base c)) updatedRS in
      modify (λ c, set_base
                     (mkReconcilerBase (kubeclientset (base c))
                                       (replicaSetInformer (base c) ++ [updatedRS]))
                     c) ;;
      if err is Some err then
        failWith "error updating replicaset informer in setFinalRSStatus" err
      else ret err.

End WithConstants.

(** ** The dispatcher

    [reconcile] calls five other methods of the context that are defined
    in other files of the package; they are parameters.  [isScalingEvent]
    returns the Go pair [(bool, error)]. *)
Class Collaborators : Type := mkCollaborators {
  checkPausedConditions : M (option error);
  isScalingEvent : M (bool * option error);
  syncReplicasOnly : M (option error);
  rolloutBlueGreen : M (option error);
  rolloutCanary : M (option error)
}.

Definition reconcile `{Collaborators} : M (option error) :=
  err <- checkPausedConditions ;;
  if err is Some err then ret (Some err)
  else
    r <- isScalingEvent ;;
    let '(isScalingEvent, err) := r in
    if err is Some err then ret (Some err)
    else if isScalingEvent : bool then syncReplicasOnly
    else
      c <- get ;;
      if v1alpha1.RolloutStrategy.BlueGreen
           (v1alpha1.RolloutSpec.Strategy (v1alpha1.Rollout.Spec (rollout c)))
         is Some _
      then rolloutBlueGreen
      else rolloutCanary.

(** ** The rollback window (docs/features/rollback.md) *)
Module RollbackWindow.

(** Modelled from the spec: the rollback-window evaluator is missing
    from the sources at hand (only its documentation,
    docs/features/rollback.md, is there).  Its input is the revision
    history, most recent first, each entry a replica set that still
    exists, with its revision number (absent when the revision metadata
    is missing or corrupt), whether it is the revision the rollout is at
    when the request is decided (marked "current" in scenario B and in
    rollback.md), whether it is marked "stable", and whether it carries
    the abort marker; the target revision; and the window size. *)
Record Entry : Type := mkEntry {
  revision : option Z;
  current : bool;
  stable : bool;
  aborted : bool
}.

(** The outcome, with its reason. *)
Inductive Verdict : Type :=
| WithinWindow          (* eligible *)
| MovingForward         (* distance <= 0 *)
| OutsideWindow         (* distance > N *)
| MissingReplicaSet     (* the target replica set does not exist *)
| BadReplicaSet         (* abort marker on the target *)
| MissingMetadata.      (* no usable revision to count the distance from *)

Definition lookupRevision (history : list Entry) (target_revision : Z)
  : option Entry :=
  List.find (λ rs, bool_decide (revision rs = Some target_revision)) history.

(** Modelled from the spec: [distance = current_stable_revision -
    target_revision]; eligible iff [1 <= distance <= N], the target
    replica set still exists and it carries no prior-abort marker; the
    distance is the static one, whatever the markers of the revisions in
    between. *)
Definition evaluateFrom (history : list Entry)
    (current_stable_revision target_revision N : Z) : Verdict :=
  let distance := current_stable_revision - target_revision in
  if (distance <=? 0)%Z then MovingForward
  else if (N <? distance)%Z then OutsideWindow
  else match lookupRevision history target_revision with
       | None => MissingReplicaSet
       | Some rs => if aborted rs then BadReplicaSet else WithinWindow
       end.

(** Modelled from the spec: the revision the distance is counted from is
    read from the history; it is the revision the rollout is at, the one
    rolled back from: revision 5 in rollback.md ("a rollback from revision
    5 back to 4 or 3") and in both scenarios of the specification, where
    scenario A marks it stable, the rollout being fully promoted, and
    scenario B marks it current, revision 3 being the stable one.  Missing
    metadata makes the request ineligible. *)
Definition current_stable_revision (history : list Entry) : option Z :=
  List.find current history ≫= revision.

Definition evaluate (history : list Entry) (target_revision N : Z) : Verdict :=
  match current_stable_revision history with
  | Some C => evaluateFrom history C target_revision N
  | None => MissingMetadata
  end.

Definition eligible (v : Verdict) : bool :=
  if v is WithinWindow then true else false.

(** A linear history: no revision number occurs twice. *)
Definition linear (history : list Entry) : Prop :=
  NoDup (omap revision history).

(** The target replica set still exists. *)
Definition exists_in (history : list Entry) (R : Z) : Prop :=
  ∃ rs, rs ∈ history ∧ revision rs = Some R.

(** The target carries no prior-abort marker. *)
Definition unmarked (history : list Entry) (R : Z) : Prop :=
  ∀ rs, rs ∈ history → revision rs = Some R → aborted rs = false.

(** Two histories that differ at most in the abort markers of revisions
    other than [R]. *)
Definition same_but_markers (R : Z) (h h' : list Entry) : Prop :=
  Forall2 (λ a b, revision a = revision b ∧ current a = current b ∧
                  stable a = stable b ∧
                  (revision a = Some R → aborted a = aborted b)) h h'.

(** Scenario B of the specification:
    [2, 3(stable), 4(aborted), 5(current)], most recent first. *)
Definition scenarioB : list Entry :=
  [ mkEntry (Some 5) true false false;
    mkEntry (Some 4) false false true;
    mkEntry (Some 3) false true false;
    mkEntry (Some 2) false false false ].

(** Scenario A of the specification and the history of
    docs/features/rollback.md: [1, 2, 3, 4, 5], revision 5 stable and
    current. *)
Definition scenarioA : list Entry :=
  [ mkEntry (Some 5) true true false;
    mkEntry (Some 4) false false false;
    mkEntry (Some 3) false false false;
    mkEntry (Some 2) false false false;
    mkEntry (Some 1) false false false ].

End RollbackWindow.

(** ** Vocabulary of the statements *)

(** The pause condition with reason [reason] is active in [rollout]. *)
Definition active (rollout : v1alpha1.Rollout.t) (reason : v1alpha1.PauseReason)
  : Prop :=
  ∃ cond,
    cond ∈ v1alpha1.RolloutStatus.PauseConditions (v1alpha1.Rollout.Status rollout)
    ∧ v1alpha1.PauseCondition.Reason cond = reason.

(** The computation [m] leaves the observation [f] of the context as it
    found it. *)
Definition preserves {A B : Type} (f : rolloutContext → A) (m : M B) : Prop :=
  ∀ c r c', m c = Some (r, c') → f c' = f c.


Section AllowedKeys.
Context `{Constants}.

(** The keys the patch may carry. *)
Definition annotationKeyAllowed (key : string) : Prop :=
  hasOwnedPrefix key = true
  ∨ key = DefaultReplicaSetScaleDownDeadlineAnnotationKey
  ∨ key = ReplicaSetFinalStatusKey.

Definition labelKeyAllowed (key : string) : Prop :=
  hasOwnedPrefix key = true ∨ key = DefaultRolloutUniqueLabelKey.

(** The whitelist as the specification words it: the owned prefixes,
    the unique-template-hash key, the final-status key. *)
Definition keyAllowedBySpec (key : string) : Prop :=
  hasOwnedPrefix key = true
  ∨ key = DefaultRolloutUniqueLabelKey
  ∨ key = ReplicaSetFinalStatusKey.

End AllowedKeys.

(** ** Sample objects

    Concrete rollouts, replica sets and collaborators on which the
    statements below are evaluated. *)
Module Sample.

Definition meta (name : string) : metav1.ObjectMeta :=
  metav1.mkObjectMeta name "prod" "" "" 0 ∅ ∅ [] [].

Definition status : v1alpha1.RolloutStatus.t :=
  v1alpha1.RolloutStatus.mk false [] false "7d9c" (Some 2) "5f6b" None
    (v1alpha1.CanaryStatus.mk
       (Some (v1alpha1.RolloutAnalysisRunStatus.mk "web-step-1" "Running" ""))
       None "")
    (v1alpha1.BlueGreenStatus.mk "" "" None None).

Definition canary : v1alpha1.RolloutStrategy.t :=
  v1alpha1.RolloutStrategy.mk None
    (Some (v1alpha1.CanaryStrategy.mk "web-canary" "web-stable")).

Definition blueGreen : v1alpha1.RolloutStrategy.t :=
  v1alpha1.RolloutStrategy.mk
    (Some (v1alpha1.BlueGreenStrategy.mk "web-active" "web-preview")) None.

Definition noStrategy : v1alpha1.RolloutStrategy.t :=
  v1alpha1.RolloutStrategy.mk None None.

Definition rolloutWith (paused : bool) (strategy : v1alpha1.RolloutStrategy.t)
    (conds : list v1alpha1.PauseCondition.t) : v1alpha1.Rollout.t :=
  v1alpha1.Rollout.mk (meta "web")
    (v1alpha1.RolloutSpec.mk (Some 3) paused strategy None (Some 3))
    (v1alpha1.RolloutStatus.mk false conds false "7d9c" (Some 2) "5f6b" None
       (v1alpha1.CanaryStatus.mk None None "")
       (v1alpha1.BlueGreenStatus.mk "" "" None None)).

Definition inconclusive : v1alpha1.PauseCondition.t :=
  v1alpha1.PauseCondition.mk "InconclusiveAnalysisRun" 1700000000.

Definition pauseStep : v1alpha1.PauseCondition.t :=
  v1alpha1.PauseCondition.mk "CanaryPauseStep" 1700000100.

Definition run (name phase : string) : v1alpha1.AnalysisRun.t :=
  v1alpha1.AnalysisRun.mk (meta name)
    (v1alpha1.AnalysisRunStatus.mk phase "").

Definition experiment (name : string) : v1alpha1.Experiment.t :=
  v1alpha1.Experiment.mk (meta name) "Running".

Definition noRuns : analysisutil.CurrentAnalysisRuns :=
  analysisutil.mkCurrentAnalysisRuns None None None None.

Definition contextOf (r : v1alpha1.Rollout.t) : rolloutContext :=
  mkRolloutContext (mkReconcilerBase [] []) [] r None (Some liveRS) None
    [liveRS] [] [] noRuns [] None [] status None None None.

(** A context in the middle of a canary update, with a step analysis
    run and an experiment left over from the previous pass. *)
Definition canaryContext : rolloutContext :=
  mkRolloutContext (mkReconcilerBase [] []) []
    (rolloutWith false canary []) None (Some liveRS) None
    [liveRS] [] [] noRuns
    [run "web-step-1" "Running"; run "web-bg-0" "Successful"]
    None
    [experiment "web-exp-0"; experiment "web-exp-1"]
    status None None None.

(** A cluster in which every request succeeds; the store answers with
    the patched object. *)
Definition patched : appsv1.ReplicaSet :=
  setAnnotation "argo-rollouts.argoproj.io/final-status" "success" liveRS.

Definition cluster : Cluster :=
  mkCluster (λ _ _ _, ("{}", true, None))
            (λ _ _, (Some patched, None))
            (λ _ _, None).

(** Collaborators of a pass that is a pure scaling event; the strategy
    branches panic when they are entered. *)
Definition scaling : Collaborators :=
  mkCollaborators (ret None) (ret (true, None))
                  (Infof "Syncing replicas only due to scaling event" ;; ret None)%go
                  panic panic.

End Sample.

(** ** More vocabulary and sample objects *)
Section CopiedKeys.
Context `{Constants}.

(** The live annotations that [generateBasePatch] copies. *)
Definition annotationCopied (key : string) : Prop :=
  hasOwnedPrefix key = true
  ∨ key = DefaultReplicaSetScaleDownDeadlineAnnotationKey.

(** Two live replica sets that agree on everything [generateBasePatch]
    reads: the replica count, the template labels and annotations, the
    copied annotations and labels, and the unique-template-hash match
    label. *)
Definition samePatchInputs (rs1 rs2 : appsv1.ReplicaSet)
    (sel1 sel2 : metav1.LabelSelector) : Prop :=
  appsv1.Replicas (appsv1.Spec rs1) = appsv1.Replicas (appsv1.Spec rs2)
  ∧ metav1.Labels (appsv1.Template (appsv1.Spec rs1))
    = metav1.Labels (appsv1.Template (appsv1.Spec rs2))
  ∧ metav1.Annotations (appsv1.Template (appsv1.Spec rs1))
    = metav1.Annotations (appsv1.Template (appsv1.Spec rs2))
  ∧ (∀ k, annotationCopied k →
       metav1.Annotations rs1 !! k = metav1.Annotations rs2 !! k)
  ∧ (∀ k, labelKeyAllowed k → metav1.Labels rs1 !! k = metav1.Labels rs2 !! k)
  ∧ metav1.MatchLabels sel1 !! DefaultRolloutUniqueLabelKey
    = metav1.MatchLabels sel2 !! DefaultRolloutUniqueLabelKey.

End CopiedKeys.

(** A context differs from another one at most in the embedded
    reconciler base and in the log. *)
Definition sameButClusterAndLog (c c' : rolloutContext) : Prop :=
  c' = set_log (log c') (set_base (base c') c).



Module Fixture.

(** The selector of [liveRS]. *)
Definition liveSelector : metav1.LabelSelector :=
  metav1.mkLabelSelector
    (list_to_map [("rollouts-pod-template-hash", "7d9c"); ("app", "web")]) [].

(** [liveRS] after edits by other actors: another name and resource
    version, a foreign annotation and label changed, the status moved. *)
Definition editedRS : appsv1.ReplicaSet :=
  appsv1.mkReplicaSet
    (metav1.mkObjectMeta "web-7d9c-b" "prod" "uid-1" "57" 4
       (list_to_map [("rollouts-pod-template-hash", "7d9c"); ("team", "platform")])
       (list_to_map [("scale-down-deadline", "2026-01-01T00:00:00Z");
                     ("rollout.argoproj.io/revision", "4");
                     ("deployment.kubernetes.io/owner", "y")])
       ["Rollout/web"] ["foregroundDeletion"])
    (appsv1.mkReplicaSetSpec (Some 3) 9
       (Some (metav1.mkLabelSelector
                (list_to_map [("rollouts-pod-template-hash", "7d9c")])
                [("tier", "In", ["web"])]))
       (appsv1.mkPodTemplateSpec
          (metav1.mkObjectMeta "" "" "" "" 0
             (list_to_map [("app", "web")]) ∅ [] [])
          (appsv1.mkPodSpec ["web:1.1"] "node-3")))
    (appsv1.mkReplicaSetStatus 2 1 1 4).

Definition editedSelector : metav1.LabelSelector :=
  metav1.mkLabelSelector
    (list_to_map [("rollouts-pod-template-hash", "7d9c")])
    [("tier", "In", ["web"])].

(** A replica set without a selector. *)
Definition noSelectorRS : appsv1.ReplicaSet :=
  appsv1.mkReplicaSet (Sample.meta "web-0")
    (appsv1.mkReplicaSetSpec (Some 1) 0 None
       (appsv1.mkPodTemplateSpec metav1.ObjectMeta_zero appsv1.PodSpec_zero))
    appsv1.ReplicaSetStatus_zero.

Definition context : rolloutContext :=
  Sample.contextOf (Sample.rolloutWith false Sample.canary []).

(** A rollout that configures both strategies, and its context. *)
Definition bothStrategies : v1alpha1.RolloutStrategy.t :=
  v1alpha1.RolloutStrategy.mk
    (Some (v1alpha1.BlueGreenStrategy.mk "web-active" "web-preview"))
    (Some (v1alpha1.CanaryStrategy.mk "web-canary" "web-stable")).

Definition bothContext : rolloutContext :=
  Sample.contextOf (Sample.rolloutWith false bothStrategies []).

Definition blueGreenContext : rolloutContext :=
  Sample.contextOf (Sample.rolloutWith false Sample.blueGreen []).

Definition noStrategyContext : rolloutContext :=
  Sample.contextOf (Sample.rolloutWith false Sample.noStrategy []).

(** A store that refuses the patch. *)
Definition conflict : error :=
  errorString "Operation cannot be fulfilled on replicasets.apps".

Definition refusingCluster : Cluster :=
  mkCluster (λ _ _ _, ("{}", true, None))
            (λ _ _, (None, Some conflict))
            (λ _ _, None).

(** Strategy branches that leave a line in the log. *)
Definition enter (branch : string) : M (option error) :=
  (Infof branch ;; ret None)%go.





End Fixture.

(** * Properties *)

Local Ltac run :=
  unfold bind, ret, get, modify, deref, panic, Infof, whenSet in *; simpl in *.

(** ** haltProgress *)
Section HaltProgress.
Context `{Constants}.

Lemma getPauseCondition_Some rollout reason :
  is_Some (getPauseCondition rollout reason) ↔ active rollout reason.
Proof.
  unfold getPauseCondition, active.
  generalize (v1alpha1.RolloutStatus.PauseConditions
                (v1alpha1.Rollout.Status rollout)) as conds.
  induction conds as [|cond conds IH]; simpl.
  - split; [intros [? ?]; discriminate | intros (? & Hin & _); inversion Hin].
  - case_bool_decide as Hr.
    + split; [intros _ | eauto].
      exists cond. split; [left | done].
    + rewrite IH. split.
      * intros (x & Hin & Hx). exists x. split; [by right | done].
      * intros (x & Hin & Hx). apply elem_of_cons in Hin as [-> | Hin]; [done |].
        by exists x.
Qed.

Lemma getPauseCondition_None rollout reason :
  getPauseCondition rollout reason = None ↔ ¬ active rollout reason.
Proof.
  rewrite <- getPauseCondition_Some, eq_None_not_Some. done.
Qed.

(** C2.  [haltProgress] returns the first active reason in the order
    user pause, inconclusive analysis: "user paused" whenever
    [spec.paused] is set, whatever the pause conditions; "inconclusive
    analysis" when the rollout is not paused by the user and the
    inconclusive-analysis condition is active; the empty string when
    neither holds. *)
Theorem haltProgress_precedence (c : rolloutContext) :
  let paused :=
    v1alpha1.RolloutSpec.Paused (v1alpha1.Rollout.Spec (rollout c)) in
  let inconclusive := active (rollout c) PauseReasonInconclusiveAnalysis in
  ∃ reason,
    fst <$> haltProgress c = Some reason
    ∧ (paused = true → reason = "user paused")
    ∧ (paused = false → inconclusive → reason = "inconclusive analysis")
    ∧ (paused = false → ¬ inconclusive → reason = "").
Proof.
  intros paused inconclusive. subst paused inconclusive.
  unfold haltProgress. run.
  destruct (v1alpha1.RolloutSpec.Paused _) eqn:Hp; simpl.
  - exists "user paused". repeat split; congruence.
  - destruct (getPauseCondition _ _) eqn:Hg; simpl.
    + exists "inconclusive analysis". repeat split; try congruence.
      intros _ Hn. apply getPauseCondition_None in Hn. congruence.
    + exists "". repeat split; try congruence.
      intros _ Ha. apply getPauseCondition_Some in Ha as [? ?]. congruence.
Qed.

(** C7.  [haltProgress] only reads: it returns the context it was given,
    unchanged in every field (the rollout, the working status, the
    pause conditions, the replica-set, analysis-run and experiment
    sets), and a second call on that context returns the same reason. *)
Theorem haltProgress_pure (c : rolloutContext) :
  ∃ reason,
    haltProgress c = Some (reason, c)
    ∧ (r1 <- haltProgress ;; r2 <- haltProgress ;; ret (r1, r2))%go c
      = Some ((reason, reason), c).
Proof.
  assert (∃ reason, haltProgress c = Some (reason, c)) as [reason Hr].
  { unfold haltProgress. run.
    destruct (v1alpha1.RolloutSpec.Paused _); [eauto |].
    destruct (getPauseCondition _ _); eauto. }
  exists reason. split; [exact Hr |].
  cbv [bind]. rewrite Hr. cbv beta iota. rewrite Hr. reflexivity.
Qed.

End HaltProgress.

(** Scenario D: a user pause together with an inconclusive-analysis pause. *)
Lemma haltProgress_precedence_witness :
  let c := Sample.contextOf
             (Sample.rolloutWith true Sample.canary [Sample.inconclusive]) in
  let c' := Sample.contextOf
              (Sample.rolloutWith false Sample.canary
                 [Sample.pauseStep; Sample.inconclusive]) in
  let c'' := Sample.contextOf
               (Sample.rolloutWith false Sample.canary [Sample.pauseStep]) in
  fst <$> haltProgress (H:=upstreamConstants) c = Some "user paused"
  ∧ fst <$> haltProgress (H:=upstreamConstants) c' = Some "inconclusive analysis"
  ∧ fst <$> haltProgress (H:=upstreamConstants) c'' = Some "".
Proof.
  intros c c' c''.
  pose proof (haltProgress_precedence (H:=upstreamConstants) c) as (r & Hr & H1 & _).
  pose proof (haltProgress_precedence (H:=upstreamConstants) c') as (r' & Hr' & _ & H2 & _).
  pose proof (haltProgress_precedence (H:=upstreamConstants) c'') as (r'' & Hr'' & _ & _ & H3).
  split; [| split].
  - rewrite Hr, H1; reflexivity.
  - rewrite Hr', H2; [reflexivity | reflexivity |].
    exists Sample.inconclusive. split; [| reflexivity].
    simpl. right. left.
  - rewrite Hr'', H3; [reflexivity | reflexivity |].
    intros (cond & Hin & Hc). simpl in Hin.
    apply elem_of_cons in Hin as [-> | Hin]; [discriminate | inversion Hin].
Defined.

(** ** The patch generator *)
Section PatchGeneratorFacts.
Context `{Constants}.

Lemma copyKey_lookup key src dst k :
  copyKey key src dst !! k =
  if decide (k = key) then
    match src !! key with Some v => Some v | None => dst !! k end
  else dst !! k.
Proof.
  unfold copyKey. destruct (src !! key) eqn:Hs; case_decide; subst;
    by rewrite ?lookup_insert_eq, ?lookup_insert_ne.
Qed.

(** The loop over the live map, whatever the order in which Go visits
    the keys: an owned key takes the live value, every other key keeps
    what the patch already had. *)
Lemma copyOwned_lookup src dst k :
  copyOwned src dst !! k =
  match src !! k with
  | Some v => if hasOwnedPrefix k then Some v else dst !! k
  | None => dst !! k
  end.
Proof.
  unfold copyOwned. revert k.
  apply (map_fold_weak_ind
           (λ acc m, ∀ k, acc !! k =
              match m !! k with
              | Some v => if hasOwnedPrefix k then Some v else dst !! k
              | None => dst !! k
              end)).
  - intros k. by rewrite lookup_empty.
  - intros i x m acc Hi IH k.
    destruct (decide (k = i)) as [-> | Hne].
    + rewrite lookup_insert_eq. destruct (hasOwnedPrefix i) eqn:Ho.
      * by rewrite lookup_insert_eq.
      * by rewrite IH, Hi.
    + rewrite (lookup_insert_ne m) by done.
      destruct (hasOwnedPrefix i); [rewrite lookup_insert_ne by done |]; apply IH.
Qed.

(** What [generateBasePatch] builds, field by field. *)
Lemma generateBasePatch_Some rs sel :
  appsv1.Selector (appsv1.Spec rs) = Some sel →
  ∃ patch sel',
    generateBasePatch (Some rs) = Some patch
    ∧ appsv1.Selector (appsv1.Spec patch) = Some sel'
    ∧ metav1.Annotations patch =
        copyOwned (metav1.Annotations rs)
          (copyKey DefaultReplicaSetScaleDownDeadlineAnnotationKey
                   (metav1.Annotations rs) ∅)
    ∧ metav1.Labels patch =
        copyOwned (metav1.Labels rs)
          (copyKey DefaultRolloutUniqueLabelKey (metav1.Labels rs) ∅)
    ∧ metav1.MatchLabels sel' =
        copyKey DefaultRolloutUniqueLabelKey (metav1.MatchLabels sel) ∅
    ∧ metav1.MatchExpressions sel' = []
    ∧ appsv1.Replicas (appsv1.Spec patch) = appsv1.Replicas (appsv1.Spec rs)
    ∧ metav1.Labels (appsv1.Template (appsv1.Spec patch))
      = metav1.Labels (appsv1.Template (appsv1.Spec rs))
    ∧ metav1.Annotations (appsv1.Template (appsv1.Spec patch))
      = metav1.Annotations (appsv1.Template (appsv1.Spec rs))
    ∧ (metav1.Name patch, metav1.Namespace patch, metav1.UID patch,
       metav1.ResourceVersion patch, metav1.Generation patch,
       metav1.OwnerReferences patch, metav1.Finalizers patch)
      = ("", "", "", "", 0, [], [])
    ∧ (let t := appsv1.Template (appsv1.Spec patch) in
       (metav1.Name t, metav1.Namespace t, metav1.UID t,
        metav1.ResourceVersion t, metav1.Generation t,
        metav1.OwnerReferences t, metav1.Finalizers t,
        appsv1.Template_Spec t)
       = ("", "", "", "", 0, [], [], appsv1.PodSpec_zero))
    ∧ appsv1.MinReadySeconds (appsv1.Spec patch) = 0
    ∧ appsv1.Status patch = appsv1.ReplicaSetStatus_zero.
Proof.
  intros Hsel. unfold generateBasePatch. simpl. rewrite Hsel. simpl.
  eexists _, _. repeat split.
Qed.

Lemma generateBasePatch_None_iff (rs : option appsv1.ReplicaSet) :
  generateBasePatch rs = None ↔
  rs = None ∨ ∃ r, rs = Some r ∧ appsv1.Selector (appsv1.Spec r) = None.
Proof.
  unfold generateBasePatch. destruct rs as [r|]; simpl.
  - destruct (appsv1.Selector (appsv1.Spec r)) eqn:Hs; simpl.
    + split; [discriminate |]. intros [? | (r' & [= <-] & ?)]; congruence.
    + split; [eauto | done].
  - split; [eauto | done].
Qed.

Lemma generateBasePatch_Some_inv (rs : option appsv1.ReplicaSet) patch :
  generateBasePatch rs = Some patch →
  ∃ r sel, rs = Some r ∧ appsv1.Selector (appsv1.Spec r) = Some sel.
Proof.
  intros Hp. destruct rs as [r|]; [| done].
  destruct (appsv1.Selector (appsv1.Spec r)) as [sel|] eqn:Hs; [eauto |].
  assert (generateBasePatch (Some r) = None) as Hn
    by (apply generateBasePatch_None_iff; eauto).
  congruence.
Qed.

Lemma base_annotation_keys (live : gmap string string) k v :
  copyOwned live
    (copyKey DefaultReplicaSetScaleDownDeadlineAnnotationKey live ∅) !! k
  = Some v →
  live !! k = Some v
  ∧ (hasOwnedPrefix k = true
     ∨ k = DefaultReplicaSetScaleDownDeadlineAnnotationKey).
Proof.
  rewrite copyOwned_lookup, copyKey_lookup, lookup_empty.
  destruct (live !! k) as [w|] eqn:Hk.
  - destruct (hasOwnedPrefix k); [intros [= ->]; auto |].
    case_decide as Hd; [| done]. subst k. rewrite Hk. intros [= ->]. auto.
  - case_decide as Hd; [| done]. subst k. by rewrite Hk.
Qed.

Lemma base_label_keys (live : gmap string string) k v :
  copyOwned live (copyKey DefaultRolloutUniqueLabelKey live ∅) !! k = Some v →
  live !! k = Some v
  ∧ (hasOwnedPrefix k = true ∨ k = DefaultRolloutUniqueLabelKey).
Proof.
  rewrite copyOwned_lookup, copyKey_lookup, lookup_empty.
  destruct (live !! k) as [w|] eqn:Hk.
  - destruct (hasOwnedPrefix k); [intros [= ->]; auto |].
    case_decide as Hd; [| done]. subst k. rewrite Hk. intros [= ->]. auto.
  - case_decide as Hd; [| done]. subst k. by rewrite Hk.
Qed.

Lemma generateRSFinalStatusPatch_run status c base :
  generateBasePatch (newRS c) = Some base →
  generateRSFinalStatusPatch status c
  = Some (setAnnotation ReplicaSetFinalStatusKey status base, c).
Proof. intros Hb. unfold generateRSFinalStatusPatch. run. by rewrite Hb. Qed.

(** C4, as amended.  For a new replica set with a selector, the final
    status patch is produced, the context is left as it was, and:
    every annotation of the patch is the final-status key or is a live
    annotation whose key has an owned prefix or is the
    scale-down-deadline key; every label is a live label whose key has
    an owned prefix or is the unique-template-hash key; the selector
    holds at most the live unique-template-hash match label; the replica
    count and the template labels and annotations are the live ones;
    every other field is the zero value. *)
Theorem patch_whitelist (c : rolloutContext) (status : string)
    (rs : appsv1.ReplicaSet) (sel : metav1.LabelSelector) :
  newRS c = Some rs →
  appsv1.Selector (appsv1.Spec rs) = Some sel →
  ∃ patch sel',
    generateRSFinalStatusPatch status c = Some (patch, c)
    ∧ (∀ k v, metav1.Annotations patch !! k = Some v →
         annotationKeyAllowed k
         ∧ (k ≠ ReplicaSetFinalStatusKey → metav1.Annotations rs !! k = Some v))
    ∧ (∀ k v, metav1.Labels patch !! k = Some v →
         labelKeyAllowed k ∧ metav1.Labels rs !! k = Some v)
    ∧ appsv1.Selector (appsv1.Spec patch) = Some sel'
    ∧ metav1.MatchExpressions sel' = []
    ∧ (∀ k v, metav1.MatchLabels sel' !! k = Some v →
         k = DefaultRolloutUniqueLabelKey ∧ metav1.MatchLabels sel !! k = Some v)
    ∧ appsv1.Replicas (appsv1.Spec patch) = appsv1.Replicas (appsv1.Spec rs)
    ∧ metav1.Labels (appsv1.Template (appsv1.Spec patch))
      = metav1.Labels (appsv1.Template (appsv1.Spec rs))
    ∧ metav1.Annotations (appsv1.Template (appsv1.Spec patch))
      = metav1.Annotations (appsv1.Template (appsv1.Spec rs))
    ∧ (metav1.Name patch, metav1.Namespace patch, metav1.UID patch,
       metav1.ResourceVersion patch, metav1.Generation patch,
       metav1.OwnerReferences patch, metav1.Finalizers patch)
      = ("", "", "", "", 0, [], [])
    ∧ (let t := appsv1.Template (appsv1.Spec patch) in
       (metav1.Name t, metav1.Namespace t, metav1.UID t,
        metav1.ResourceVersion t, metav1.Generation t,
        metav1.OwnerReferences t, metav1.Finalizers t,
        appsv1.Template_Spec t)
       = ("", "", "", "", 0, [], [], appsv1.PodSpec_zero))
    ∧ appsv1.MinReadySeconds (appsv1.Spec patch) = 0
    ∧ appsv1.Status patch = appsv1.ReplicaSetStatus_zero.
Proof.
  intros Hrs Hsel.
  destruct (generateBasePatch_Some rs sel Hsel)
    as (base & sel' & Hb & Hs' & Han & Hla & Hml & Hme & Hrep & Htl & Hta
        & Hmeta & Htpl & Hmin & Hst).
  exists (setAnnotation ReplicaSetFinalStatusKey status base), sel'.
  split; [apply generateRSFinalStatusPatch_run; by rewrite Hrs |].
  split; [| split; [| split; [| split; [| split]]]].
  - intros k v. simpl. destruct (decide (k = ReplicaSetFinalStatusKey)) as [-> | Hne].
    + intros _. split; [right; right; reflexivity | done].
    + rewrite lookup_insert_ne by done. rewrite Han.
      intros [Hl Hk]%base_annotation_keys. split; [| done].
      destruct Hk; [left | right; left]; done.
  - intros k v. simpl. rewrite Hla. intros [Hl Hk]%base_label_keys. done.
  - exact Hs'.
  - exact Hme.
  - intros k v. rewrite Hml, copyKey_lookup, lookup_empty.
    case_decide as Hd; [| done]. subst k.
    destruct (metav1.MatchLabels sel !! DefaultRolloutUniqueLabelKey); [| done].
    intros [= ->]. done.
  - simpl. repeat split; assumption.
Qed.


End PatchGeneratorFacts.

(** C4, as the specification words it, fails: the scale-down deadline of
    the live replica set goes into the patch, and its key has no owned
    prefix and is neither the unique-template-hash key nor the
    final-status key. *)
Lemma patch_whitelist_counterexample :
  ∃ patch key,
    generateBasePatch (H:=upstreamConstants) (Some liveRS) = Some patch
    ∧ key ∈ dom (metav1.Annotations patch)
    ∧ ¬ keyAllowedBySpec (H:=upstreamConstants) key.
Proof.
  eexists _, "scale-down-deadline". split; [reflexivity |]. split.
  - apply elem_of_dom. eexists. vm_compute. reflexivity.
  - intros [Hp | [He | He]]; vm_compute in Hp || vm_compute in He; discriminate.
Qed.

Lemma patch_whitelist_witness :
  ∃ patch,
    generateRSFinalStatusPatch (H:=upstreamConstants) "success"
      (Sample.contextOf (Sample.rolloutWith false Sample.canary []))
    = Some (patch, Sample.contextOf (Sample.rolloutWith false Sample.canary []))
    ∧ appsv1.Replicas (appsv1.Spec patch) = Some 3.
Proof.
  destruct (patch_whitelist (H:=upstreamConstants)
              (Sample.contextOf (Sample.rolloutWith false Sample.canary []))
              "success" liveRS
              (metav1.mkLabelSelector
                 (list_to_map [("rollouts-pod-template-hash", "7d9c"); ("app", "web")])
                 [])
              eq_refl eq_refl)
    as (patch & sel' & Hrun & _ & _ & _ & _ & _ & Hrep & _).
  exists patch. split; [exact Hrun | exact Hrep].
Defined.



(** ** SetCurrentAnalysisRuns *)
Section AnalysisRuns.

(** C10.  [SetCurrentAnalysisRuns] always returns; it records the
    supplied set of current runs; a status sub-field whose slot is nil
    keeps the value it had, and a sub-field that was set is never
    cleared; when the rollout configures neither strategy, the working
    status is left as it was. *)
Theorem SetCurrentAnalysisRuns_never_clears
    (c : rolloutContext) (currARs : analysisutil.CurrentAnalysisRuns) :
  let strategy :=
    v1alpha1.RolloutSpec.Strategy (v1alpha1.Rollout.Spec (rollout c)) in
  let background s := v1alpha1.CanaryStatus.CurrentBackgroundAnalysisRunStatus
                        (v1alpha1.RolloutStatus.Canary s) in
  let step s := v1alpha1.CanaryStatus.CurrentStepAnalysisRunStatus
                  (v1alpha1.RolloutStatus.Canary s) in
  let pre s := v1alpha1.BlueGreenStatus.PrePromotionAnalysisRunStatus
                 (v1alpha1.RolloutStatus.BlueGreen s) in
  let post s := v1alpha1.BlueGreenStatus.PostPromotionAnalysisRunStatus
                  (v1alpha1.RolloutStatus.BlueGreen s) in
  ∃ c',
    SetCurrentAnalysisRuns currARs c = Some (tt, c')
    ∧ currentArs c' = currARs
    ∧ (analysisutil.CanaryBackground currARs = None →
         background (newStatus c') = background (newStatus c))
    ∧ (analysisutil.CanaryStep currARs = None →
         step (newStatus c') = step (newStatus c))
    ∧ (analysisutil.BlueGreenPrePromotion currARs = None →
         pre (newStatus c') = pre (newStatus c))
    ∧ (analysisutil.BlueGreenPostPromotion currARs = None →
         post (newStatus c') = post (newStatus c))
    ∧ (is_Some (background (newStatus c)) → is_Some (background (newStatus c')))
    ∧ (is_Some (step (newStatus c)) → is_Some (step (newStatus c')))
    ∧ (is_Some (pre (newStatus c)) → is_Some (pre (newStatus c')))
    ∧ (is_Some (post (newStatus c)) → is_Some (post (newStatus c')))
    ∧ (v1alpha1.RolloutStrategy.Canary strategy = None →
       v1alpha1.RolloutStrategy.BlueGreen strategy = None →
       newStatus c' = newStatus c).
Proof.
  intros strategy background step pre post.
  subst strategy background step pre post.
  unfold SetCurrentAnalysisRuns. run.
  destruct currARs as [prePromo postPromo stepAr backgroundAr]. simpl.
  destruct (v1alpha1.RolloutStrategy.Canary _) as [canary|];
    [| destruct (v1alpha1.RolloutStrategy.BlueGreen _) as [blueGreen|]].
  - destruct backgroundAr, stepAr; simpl; eexists;
      (split; [reflexivity |]); simpl;
      repeat split; try done; eauto.
  - destruct prePromo, postPromo; simpl; eexists;
      (split; [reflexivity |]); simpl;
      repeat split; try done; eauto.
  - eexists. split; [reflexivity |]. simpl. repeat split; done.
Qed.

(** C3, as amended.  [SetCurrentAnalysisRuns] records the supplied
    current runs; it projects each non-nil slot of the configured
    strategy, canary first, into its status sub-field as name, phase and
    message; and it does not touch the set of other analysis runs, nor the
    experiments: a run is in the other set after the call exactly when it
    was there before, the runs just selected as current included. *)
Theorem SetCurrentAnalysisRuns_keeps_others
    (c : rolloutContext) (currARs : analysisutil.CurrentAnalysisRuns) :
  let strategy :=
    v1alpha1.RolloutSpec.Strategy (v1alpha1.Rollout.Spec (rollout c)) in
  ∃ c',
    SetCurrentAnalysisRuns currARs c = Some (tt, c')
    ∧ currentArs c' = currARs
    ∧ otherArs c' = otherArs c
    ∧ (∀ ar, ar ∈ otherArs c' ↔ ar ∈ otherArs c)
    ∧ currentEx c' = currentEx c
    ∧ otherExs c' = otherExs c
    ∧ (is_Some (v1alpha1.RolloutStrategy.Canary strategy) →
       (∀ ar, analysisutil.CanaryBackground currARs = Some ar →
          v1alpha1.CanaryStatus.CurrentBackgroundAnalysisRunStatus
            (v1alpha1.RolloutStatus.Canary (newStatus c'))
          = Some (v1alpha1.RolloutAnalysisRunStatus.mk
                    (metav1.Name ar)
                    (v1alpha1.AnalysisRunStatus.Phase (v1alpha1.AnalysisRun.Status ar))
                    (v1alpha1.AnalysisRunStatus.Message (v1alpha1.AnalysisRun.Status ar))))
       ∧ (∀ ar, analysisutil.CanaryStep currARs = Some ar →
            v1alpha1.CanaryStatus.CurrentStepAnalysisRunStatus
              (v1alpha1.RolloutStatus.Canary (newStatus c'))
            = Some (v1alpha1.RolloutAnalysisRunStatus.mk
                      (metav1.Name ar)
                      (v1alpha1.AnalysisRunStatus.Phase (v1alpha1.AnalysisRun.Status ar))
                      (v1alpha1.AnalysisRunStatus.Message (v1alpha1.AnalysisRun.Status ar)))))
    ∧ (v1alpha1.RolloutStrategy.Canary strategy = None →
       is_Some (v1alpha1.RolloutStrategy.BlueGreen strategy) →
       (∀ ar, analysisutil.BlueGreenPrePromotion currARs = Some ar →
          v1alpha1.BlueGreenStatus.PrePromotionAnalysisRunStatus
            (v1alpha1.RolloutStatus.BlueGreen (newStatus c'))
          = Some (v1alpha1.RolloutAnalysisRunStatus.mk
                    (metav1.Name ar)
                    (v1alpha1.AnalysisRunStatus.Phase (v1alpha1.AnalysisRun.Status ar))
                    (v1alpha1.AnalysisRunStatus.Message (v1alpha1.AnalysisRun.Status ar))))
       ∧ (∀ ar, analysisutil.BlueGreenPostPromotion currARs = Some ar →
            v1alpha1.BlueGreenStatus.PostPromotionAnalysisRunStatus
              (v1alpha1.RolloutStatus.BlueGreen (newStatus c'))
            = Some (v1alpha1.RolloutAnalysisRunStatus.mk
                      (metav1.Name ar)
                      (v1alpha1.AnalysisRunStatus.Phase (v1alpha1.AnalysisRun.Status ar))
                      (v1alpha1.AnalysisRunStatus.Message (v1alpha1.AnalysisRun.Status ar))))).
Proof.
  intros strategy. subst strategy.
  unfold SetCurrentAnalysisRuns. run.
  destruct currARs as [prePromo postPromo stepAr backgroundAr]. simpl.
  destruct (v1alpha1.RolloutStrategy.Canary _) as [canary|];
    [destruct backgroundAr, stepAr
    | destruct (v1alpha1.RolloutStrategy.BlueGreen _) as [blueGreen|];
      [destruct prePromo, postPromo |]];
    simpl; eexists; (split; [reflexivity |]); simpl;
    (do 5 (split; [done |]));
    (split; [intros Hc | intros Hc Hb]);
    try (by destruct Hc); try (by destruct Hb); try discriminate;
    split; intros ? [= <-]; reflexivity.
Qed.

End AnalysisRuns.

(** C3, as the specification words it, fails: the step run selected as
    current was a delete candidate before the call and still is one
    after it. *)
Lemma SetCurrentAnalysisRuns_keeps_others_counterexample :
  ∃ c' ar,
    SetCurrentAnalysisRuns
      (analysisutil.mkCurrentAnalysisRuns None None
         (Some (Sample.run "web-step-1" "Running")) None)
      Sample.canaryContext = Some (tt, c')
    ∧ analysisutil.CanaryStep (currentArs c') = Some ar
    ∧ ar ∈ otherArs c'.
Proof.
  eexists _, _. split; [unfold SetCurrentAnalysisRuns; run; reflexivity |].
  split; [reflexivity |]. simpl. left.
Qed.

Lemma SetCurrentAnalysisRuns_keeps_others_witness :
  ∃ c',
    SetCurrentAnalysisRuns
      (analysisutil.mkCurrentAnalysisRuns None None
         (Some (Sample.run "web-step-1" "Successful")) None)
      Sample.canaryContext = Some (tt, c')
    ∧ otherArs c' = otherArs Sample.canaryContext
    ∧ v1alpha1.CanaryStatus.CurrentStepAnalysisRunStatus
        (v1alpha1.RolloutStatus.Canary (newStatus c'))
      = Some (v1alpha1.RolloutAnalysisRunStatus.mk "web-step-1" "Successful" "").
Proof.
  destruct (SetCurrentAnalysisRuns_keeps_others Sample.canaryContext
              (analysisutil.mkCurrentAnalysisRuns None None
                 (Some (Sample.run "web-step-1" "Successful")) None))
    as (c' & Hrun & _ & Hother & _ & _ & _ & Hcanary & _).
  exists c'. split; [exact Hrun |]. split; [exact Hother |].
  destruct Hcanary as [_ Hstep]; [by eexists |].
  exact (Hstep (Sample.run "web-step-1" "Successful") eq_refl).
Defined.

Lemma SetCurrentAnalysisRuns_never_clears_witness :
  ∃ c',
    SetCurrentAnalysisRuns
      (analysisutil.mkCurrentAnalysisRuns None None None
         (Some (Sample.run "web-bg-1" "Running")))
      Sample.canaryContext = Some (tt, c')
    ∧ v1alpha1.CanaryStatus.CurrentStepAnalysisRunStatus
        (v1alpha1.RolloutStatus.Canary (newStatus c'))
      = Some (v1alpha1.RolloutAnalysisRunStatus.mk "web-step-1" "Running" "").
Proof.
  destruct (SetCurrentAnalysisRuns_never_clears Sample.canaryContext
              (analysisutil.mkCurrentAnalysisRuns None None None
                 (Some (Sample.run "web-bg-1" "Running"))))
    as (c' & Hrun & _ & _ & Hstep & _).
  exists c'. split; [exact Hrun |].
  rewrite Hstep; reflexivity.
Defined.

(** Without a strategy the runs are recorded and the status is not
    written. *)
Example SetCurrentAnalysisRuns_no_strategy :
  let c := Sample.contextOf (Sample.rolloutWith false Sample.noStrategy []) in
  let runs := analysisutil.mkCurrentAnalysisRuns
                None None (Some (Sample.run "web-step-2" "Pending")) None in
  SetCurrentAnalysisRuns runs c = Some (tt, set_currentArs runs c).
Proof. reflexivity. Qed.

(** With blue-green, the canary slots are ignored. *)
Example SetCurrentAnalysisRuns_blue_green :
  let c := Sample.contextOf (Sample.rolloutWith false Sample.blueGreen []) in
  let runs := analysisutil.mkCurrentAnalysisRuns
                (Some (Sample.run "web-pre-1" "Successful")) None
                (Some (Sample.run "web-step-2" "Pending")) None in
  (λ r, v1alpha1.RolloutStatus.BlueGreen (newStatus r.2))
    <$> SetCurrentAnalysisRuns runs c
  = Some (v1alpha1.BlueGreenStatus.mk "" ""
            (Some (v1alpha1.RolloutAnalysisRunStatus.mk "web-pre-1" "Successful" ""))
            None)
  ∧ (λ r, v1alpha1.RolloutStatus.Canary (newStatus r.2))
      <$> SetCurrentAnalysisRuns runs c
    = Some (v1alpha1.RolloutStatus.Canary Sample.status).
Proof. split; reflexivity. Qed.

(** ** SetCurrentExperiment *)
Section Experiments.

Lemma removeAt_middle {A : Type} (l : list A) (i : nat) (x : A) :
  l !! i = Some x → l = (take i l ++ x :: drop (S i) l)%list.
Proof. intros Hi. by rewrite take_drop_middle. Qed.

Lemma removeAt_length {A : Type} (l : list A) (i : nat) (x : A) :
  l !! i = Some x → S (length (removeAt i l)) = length l.
Proof.
  intros Hi. rewrite (removeAt_middle l i x Hi) at 2.
  unfold removeAt. rewrite !length_app. simpl. lia.
Qed.

Lemma removeAt_elem_of {A : Type} (l : list A) (i : nat) (x y : A) :
  l !! i = Some x → y ≠ x → y ∈ removeAt i l ↔ y ∈ l.
Proof.
  intros Hi Hne. rewrite (removeAt_middle l i x Hi) at 2.
  unfold removeAt. rewrite !elem_of_app, elem_of_cons.
  split; [intros [? | ?]; auto | intros [? | [? | ?]]; auto; done].
Qed.

(** With pairwise distinct keys, nothing with the key of the removed
    entry is left. *)
Lemma removeAt_NoDup {A B : Type} (f : A → B) (l : list A) (i : nat) (x : A) :
  NoDup (f <$> l) → l !! i = Some x →
  ∀ y, y ∈ removeAt i l → f y ≠ f x.
Proof.
  intros Hnd Hi y Hy Heq.
  rewrite (removeAt_middle l i x Hi), fmap_app, fmap_cons in Hnd.
  apply NoDup_app in Hnd as (_ & Hdisj & Hnd).
  apply NoDup_cons in Hnd as [Hnotin _].
  unfold removeAt in Hy. apply elem_of_app in Hy as [Hy | Hy].
  - apply (Hdisj (f y)); [by apply list_elem_of_fmap_2 |].
    rewrite Heq. left.
  - apply Hnotin. rewrite <- Heq. by apply list_elem_of_fmap_2.
Qed.

(** C6.  [SetCurrentExperiment ex] returns; [ex] is the current
    experiment and its name is in the canary status; the first other
    experiment named like [ex], if any, is taken out of the other set and
    experiments with another name stay; the other set being a set (no
    two experiments of one name), no experiment named like [ex] is a
    delete candidate afterwards. *)
Theorem SetCurrentExperiment_rescues
    (c : rolloutContext) (ex : v1alpha1.Experiment.t) :
  ∃ c',
    SetCurrentExperiment (Some ex) c = Some (tt, c')
    ∧ currentEx c' = Some ex
    ∧ v1alpha1.CanaryStatus.CurrentExperiment
        (v1alpha1.RolloutStatus.Canary (newStatus c')) = metav1.Name ex
    ∧ (∀ e : v1alpha1.Experiment.t, metav1.Name e ≠ metav1.Name ex →
         e ∈ otherExs c' ↔ e ∈ otherExs c)
    ∧ ((∃ e : v1alpha1.Experiment.t,
          e ∈ otherExs c ∧ metav1.Name e = metav1.Name ex) →
       S (length (otherExs c')) = length (otherExs c))
    ∧ ((∀ e : v1alpha1.Experiment.t,
          e ∈ otherExs c → metav1.Name e ≠ metav1.Name ex) →
       otherExs c' = otherExs c)
    ∧ (NoDup ((λ e : v1alpha1.Experiment.t, metav1.Name e) <$> otherExs c) →
       ∀ e : v1alpha1.Experiment.t,
         e ∈ otherExs c' → metav1.Name e ≠ metav1.Name ex).
Proof.
  unfold SetCurrentExperiment. run.
  destruct (list_find _ (otherExs c)) as [[i x]|] eqn:Hfind; simpl.
  - apply list_find_Some in Hfind as (Hi & Hx & Hfirst).
    eexists. split; [reflexivity |]. simpl.
    split; [done |]. split; [done |].
    split; [| split; [| split]].
    + intros e He. apply (removeAt_elem_of _ _ x); [done |].
      intros ->. done.
    + intros _. by apply (removeAt_length _ _ x).
    + intros Hnone. exfalso. apply (Hnone x); [| done].
      by apply list_elem_of_lookup_2 in Hi.
    + intros Hnd e He. rewrite <- Hx.
      by apply (removeAt_NoDup (λ e : v1alpha1.Experiment.t, metav1.Name e)
                  (otherExs c) i x).
  - apply list_find_None in Hfind.
    eexists. split; [reflexivity |]. simpl.
    split; [done |]. split; [done |].
    split; [done |]. split; [| split; [done |]].
    + intros (e & He & Hname). exfalso.
      rewrite Forall_forall in Hfind. by apply (Hfind e).
    + intros _ e He. rewrite Forall_forall in Hfind. by apply Hfind.
Qed.

(** A nil experiment panics on [ex.Name]. *)
Lemma SetCurrentExperiment_nil (c : rolloutContext) :
  SetCurrentExperiment None c = None.
Proof. reflexivity. Qed.

End Experiments.

Lemma SetCurrentExperiment_rescues_witness :
  ∃ c',
    SetCurrentExperiment (Some (Sample.experiment "web-exp-1"))
      Sample.canaryContext = Some (tt, c')
    ∧ otherExs c' = [Sample.experiment "web-exp-0"]
    ∧ ∀ e : v1alpha1.Experiment.t, e ∈ otherExs c' → metav1.Name e ≠ "web-exp-1".
Proof.
  destruct (SetCurrentExperiment_rescues Sample.canaryContext
              (Sample.experiment "web-exp-1"))
    as (c' & Hrun & _ & _ & _ & _ & _ & Hgone).
  exists c'. split; [exact Hrun |]. split.
  - vm_compute in Hrun. injection Hrun as <-. reflexivity.
  - apply Hgone. apply (bool_decide_unpack _). vm_compute. reflexivity.
Defined.

(** ** setFinalRSStatus *)
Section FinalStatus.
Context `{Constants} `{Cluster}.

Lemma append_assoc (s t u : string) : (s +:+ t) +:+ u = s +:+ t +:+ u.
Proof.
  induction s as [|a s IH]; [reflexivity |].
  change (String a ((s +:+ t) +:+ u) = String a (s +:+ t +:+ u)).
  by rewrite IH.
Qed.

Lemma Errorf_carries (prefix name : string) (err : error) :
  carries (Error (Errorf prefix name err)) name ∧
  Unwrap (Errorf prefix name err) = Some err.
Proof.
  split; [| reflexivity].
  exists (prefix +:+ " "), (": " +:+ Error err). simpl.
  by rewrite append_assoc.
Qed.

Lemma failWith_run prefix err c rs :
  newRS c = Some rs →
  failWith prefix err c = Some (Some (Errorf prefix (metav1.Name rs) err), c).
Proof. intros Hrs. unfold failWith. run. by rewrite Hrs. Qed.

(* closes what is left of the case analysis on the three answers *)
Local Ltac settle :=
  first
    [ by (intros; simplify_eq; apply Errorf_carries)
    | by (intros; simplify_eq; eexists; split; [reflexivity | auto])
    | by (intros (? & ? & ?); congruence)
    | by (intros; congruence) ].

(** C9.  For a new replica set with a selector, [setFinalRSStatus]
    returns, and with [cerr], [perr], [uerr] the answers of patch
    creation, of the store and of the informer's indexer:
    - the store receives at most one patch request and the indexer at
      most one update, none of them after a failure (no retry);
    - when one of the three steps fails, the result is an error whose
      message carries [c.newRS.Name] and which wraps the cause;
    - when the store accepts the patch, the indexer has been given the
      object the store returned by the time the method returns, and the
      result is nil exactly when that update succeeded too. *)
Theorem setFinalRSStatus_reports (c : rolloutContext) (status : string)
    (rs : appsv1.ReplicaSet) (sel : metav1.LabelSelector) :
  newRS c = Some rs →
  appsv1.Selector (appsv1.Spec rs) = Some sel →
  ∃ patchRS r c',
    generateRSFinalStatusPatch status c = Some (patchRS, c)
    ∧ setFinalRSStatus status c = Some (r, c')
    ∧ let '(data, _, cerr) :=
        CreateTwoWayMergePatch appsv1.ReplicaSet_zero patchRS
                               appsv1.ReplicaSet_zero in
      let action :=
        mkPatchAction (metav1.Namespace patchRS) (metav1.Name patchRS)
                      StrategicMergePatchType data in
      let '(updatedRS, perr) := ReplicaSets_Patch (kubeclientset (base c)) action in
      let uerr := Indexer_Update (replicaSetInformer (base c)) updatedRS in
      let requests := kubeclientset (base c') in
      let updates := replicaSetInformer (base c') in
      (* no retry *)
      (requests = kubeclientset (base c)
       ∨ requests = (kubeclientset (base c) ++ [action])%list)
      ∧ (updates = replicaSetInformer (base c)
         ∨ updates = (replicaSetInformer (base c) ++ [updatedRS])%list)
      (* failures *)
      ∧ (∀ e, cerr = Some e →
           r = Some (Errorf "error creating patch in setFinalRSStatus"
                            (metav1.Name rs) e)
           ∧ requests = kubeclientset (base c)
           ∧ updates = replicaSetInformer (base c))
      ∧ (∀ e, cerr = None → perr = Some e →
           r = Some (Errorf "error patching replicaset in setFinalRSStatus"
                            (metav1.Name rs) e)
           ∧ requests = (kubeclientset (base c) ++ [action])%list
           ∧ updates = replicaSetInformer (base c))
      ∧ (∀ e, cerr = None → perr = None → uerr = Some e →
           r = Some (Errorf "error updating replicaset informer in setFinalRSStatus"
                            (metav1.Name rs) e))
      ∧ (∀ e, r = Some e →
           carries (Error e) (metav1.Name rs)
           ∧ ∃ cause, Unwrap e = Some cause
               ∧ (cerr = Some cause ∨ perr = Some cause ∨ uerr = Some cause))
      (* success *)
      ∧ (cerr = None → perr = None →
           requests = (kubeclientset (base c) ++ [action])%list
           ∧ updates = (replicaSetInformer (base c) ++ [updatedRS])%list)
      ∧ (r = None ↔ cerr = None ∧ perr = None ∧ uerr = None).
Proof.
  intros Hrs Hsel.
  destruct (generateBasePatch_Some rs sel Hsel) as (basePatch & ? & Hb & _).
  pose proof (generateRSFinalStatusPatch_run status c basePatch) as Hgen.
  rewrite Hrs in Hgen. specialize (Hgen Hb).
  set (patchRS := setAnnotation ReplicaSetFinalStatusKey status basePatch) in *.
  exists patchRS.
  unfold setFinalRSStatus. cbv [bind]. rewrite Hgen. cbv beta iota.
  destruct (CreateTwoWayMergePatch _ patchRS _) as [[data modified] cerr].
  destruct cerr as [ce|].
  { rewrite (failWith_run _ _ _ rs Hrs).
    eexists _, _. split; [reflexivity |]. split; [reflexivity |].
    destruct (ReplicaSets_Patch _ _) as [updatedRS perr].
    repeat split; auto; try congruence; settle. }
  run.
  destruct (ReplicaSets_Patch _ _) as [updatedRS perr].
  destruct perr as [pe|].
  { rewrite (failWith_run _ _ _ rs) by exact Hrs.
    eexists _, _. split; [reflexivity |]. split; [reflexivity |]. simpl.
    repeat split; auto; try congruence; settle. }
  simpl.
  destruct (Indexer_Update _ updatedRS) as [ue|] eqn:Hu.
  { rewrite (failWith_run _ _ _ rs) by exact Hrs.
    eexists _, _. split; [reflexivity |]. split; [reflexivity |]. simpl.
    repeat split; auto; try congruence; settle. }
  eexists _, _. split; [reflexivity |]. split; [reflexivity |]. simpl.
  repeat split; auto; try congruence; settle.
Qed.

(** The request is addressed with the namespace and the name of the
    patch object, which [generateBasePatch] leaves empty. *)
Lemma generateRSFinalStatusPatch_address (c : rolloutContext) (status : string)
    (patch : appsv1.ReplicaSet) (c' : rolloutContext) :
  generateRSFinalStatusPatch status c = Some (patch, c') →
  metav1.Namespace patch = "" ∧ metav1.Name patch = "".
Proof.
  unfold generateRSFinalStatusPatch. run.
  destruct (generateBasePatch (newRS c)) as [basePatch|] eqn:Hb; [| done].
  intros [= <- _]. simpl.
  pose proof (generateBasePatch_Some_inv _ _ Hb) as (rs & sel & Hrs & Hsel).
  destruct (generateBasePatch_Some rs sel Hsel) as (p & sel' & Hp & Hrest).
  destruct Hrest as (_ & _ & _ & _ & _ & _ & _ & _ & Hmeta & _).
  rewrite Hrs, Hp in Hb. injection Hb as Hb. rewrite <- Hb.
  by injection Hmeta.
Qed.

End FinalStatus.

Lemma setFinalRSStatus_reports_witness :
  let c := Sample.contextOf (Sample.rolloutWith false Sample.canary []) in
  ∃ c',
    setFinalRSStatus (H:=upstreamConstants) (H0:=Sample.cluster) "success" c
    = Some (None, c')
    ∧ replicaSetInformer (base c') = [Some Sample.patched].
Proof.
  intros c.
  destruct (setFinalRSStatus_reports (H:=upstreamConstants) (H0:=Sample.cluster)
              c "success" liveRS
              (metav1.mkLabelSelector
                 (list_to_map [("rollouts-pod-template-hash", "7d9c"); ("app", "web")])
                 [])
              eq_refl eq_refl)
    as (patchRS & r & c' & _ & Hrun & Hfacts).
  simpl in Hfacts.
  destruct Hfacts as (_ & _ & _ & _ & _ & _ & Hok & Hnil).
  destruct (Hok eq_refl eq_refl) as [_ Hupd].
  exists c'. split; [| exact Hupd].
  rewrite Hrun. f_equal. f_equal. apply Hnil. repeat split.
Defined.

(** ** reconcile *)
Section Dispatcher.

Variables (check : M (option error)) (scaling : M (bool * option error)).
Variables (sync blueGreen canary : M (option error)).

Local Abbreviation K := (mkCollaborators check scaling sync blueGreen canary).

(** An error of either check ends the pass with that error. *)
Lemma reconcile_check_error c e c1 :
  check c = Some (Some e, c1) → reconcile (H:=K) c = Some (Some e, c1).
Proof. intros Hc. unfold reconcile. run. by rewrite Hc. Qed.

Lemma reconcile_scaling_error c c1 b e c2 :
  check c = Some (None, c1) → scaling c1 = Some ((b, Some e), c2) →
  reconcile (H:=K) c = Some (Some e, c2).
Proof. intros Hc Hs. unfold reconcile. run. by rewrite Hc, Hs. Qed.

(** Without a scaling event, the strategy decides the branch. *)
Lemma reconcile_strategy c c1 c2 :
  check c = Some (None, c1) → scaling c1 = Some ((false, None), c2) →
  reconcile (H:=K) c =
  if v1alpha1.RolloutStrategy.BlueGreen
       (v1alpha1.RolloutSpec.Strategy (v1alpha1.Rollout.Spec (rollout c2)))
     is Some _
  then blueGreen c2 else canary c2.
Proof.
  intros Hc Hs. unfold reconcile. run. rewrite Hc, Hs.
  by destruct (v1alpha1.RolloutStrategy.BlueGreen _).
Qed.


End Dispatcher.



(** ** The rollback window *)
Module RollbackWindowFacts.
Import RollbackWindow.

Lemma lookupRevision_Some history R rs :
  lookupRevision history R = Some rs → rs ∈ history ∧ revision rs = Some R.
Proof.
  unfold lookupRevision. intros [Hin Hr]%find_some.
  split; [by apply list_elem_of_In | by apply bool_decide_eq_true in Hr].
Qed.

Lemma lookupRevision_None history R :
  lookupRevision history R = None → ¬ exists_in history R.
Proof.
  unfold lookupRevision. intros Hnone (rs & Hin & Hr).
  apply list_elem_of_In in Hin.
  pose proof (find_none _ _ Hnone rs Hin) as Hf. simpl in Hf.
  apply bool_decide_eq_false in Hf. done.
Qed.

(** In a linear history a revision number names one replica set. *)
Lemma linear_unique history R a b :
  linear history → a ∈ history → b ∈ history →
  revision a = Some R → revision b = Some R → a = b.
Proof.
  unfold linear. induction history as [|x l IH]; [intros _ Ha; inversion Ha |].
  intros Hnd Ha Hb Hra Hrb. simpl in Hnd.
  assert (Hnotin : ∀ y, revision x = Some R → y ∈ l → revision y = Some R →
                        NoDup (omap revision (x :: l)) → False).
  { intros y Hx Hy Hry. simpl. rewrite Hx. intros [Hn _]%NoDup_cons.
    apply Hn. apply list_elem_of_omap. eauto. }
  apply elem_of_cons in Ha as [-> | Ha], Hb as [-> | Hb]; [done | | |].
  - exfalso. by apply (Hnotin b Hra Hb Hrb).
  - exfalso. by apply (Hnotin a Hrb Ha Hra).
  - apply IH; [| done..].
    destruct (revision x); [by apply NoDup_cons in Hnd as [_ ?] | done].
Qed.

Lemma lookupRevision_markers R h h' :
  same_but_markers R h h' →
  aborted <$> lookupRevision h R = aborted <$> lookupRevision h' R.
Proof.
  unfold same_but_markers, lookupRevision.
  induction 1 as [|a b l l' (Hr & _ & _ & Hm) _ IH]; [done |]. simpl.
  rewrite <- Hr. case_bool_decide as Hd; simpl; [| exact IH].
  by rewrite (Hm Hd).
Qed.

Lemma current_stable_revision_markers R h h' :
  same_but_markers R h h' →
  current_stable_revision h' = current_stable_revision h.
Proof.
  unfold same_but_markers, current_stable_revision.
  induction 1 as [|a b l l' (Hr & Hc & _) _ IH]; [done |]. simpl.
  rewrite <- Hc. destruct (current a); simpl; [by rewrite Hr | exact IH].
Qed.

(** C8.  In a linear history whose current stable revision is [C], with
    [distance = C - R]: the request is eligible iff [1 <= distance <= N],
    the target replica set still exists and the target carries no
    prior-abort marker.  The verdict for [R] does not depend on the abort
    markers of other revisions, so an aborted revision inside the window
    is ineligible for itself only; and nothing beyond distance [N] is
    eligible, whatever the markers inside the window, so the window is
    never widened.  In scenario B, [2, 3(stable), 4(aborted), 5(current)]
    with N = 3, revision 4 is ineligible (bad replica set) and revision 3
    is eligible. *)
Theorem rollback_window_static (history : list Entry) (C R N : Z) :
  (linear history → current_stable_revision history = Some C →
     eligible (evaluate history R N) = true ↔
     (1 ≤ C - R ≤ N)%Z ∧ exists_in history R ∧ unmarked history R)
  ∧ (linear history →
       eligible (evaluateFrom history C R N) = true ↔
       (1 ≤ C - R ≤ N)%Z ∧ exists_in history R ∧ unmarked history R)
  ∧ (∀ history', same_but_markers R history history' →
       evaluate history' R N = evaluate history R N
       ∧ evaluateFrom history' C R N = evaluateFrom history C R N)
  ∧ (current_stable_revision history = Some C → (N < C - R)%Z →
       eligible (evaluate history R N) = false)
  ∧ (current_stable_revision history = Some C → (C - R ≤ 0)%Z →
       evaluate history R N = MovingForward)
  ∧ current_stable_revision scenarioB = Some 5%Z
  ∧ evaluate scenarioB 4 3 = BadReplicaSet
  ∧ evaluate scenarioB 3 3 = WithinWindow.
Proof.
  assert (Hiff : linear history →
            eligible (evaluateFrom history C R N) = true ↔
            (1 ≤ C - R ≤ N)%Z ∧ exists_in history R ∧ unmarked history R).
  { intros Hlin. unfold evaluateFrom.
    destruct (Z.leb_spec (C - R) 0) as [Hle | Hgt]; simpl.
    { split; [discriminate | intros [? _]; lia]. }
    destruct (Z.ltb_spec N (C - R)) as [Hout | Hin]; simpl.
    { split; [discriminate | intros [? _]; lia]. }
    destruct (lookupRevision history R) as [rs|] eqn:Hfind.
    + apply lookupRevision_Some in Hfind as [Hmem Hrev].
      destruct (aborted rs) eqn:Hab; simpl.
      * split; [discriminate |]. intros (_ & _ & Hun).
        rewrite (Hun rs Hmem Hrev) in Hab. discriminate.
      * split; [| done]. intros _.
        split; [lia |]. split; [by exists rs |].
        intros rs' Hmem' Hrev'.
        by rewrite (linear_unique history R rs' rs Hlin Hmem' Hmem Hrev' Hrev).
    + apply lookupRevision_None in Hfind. simpl.
      split; [discriminate | intros (_ & ? & _); done]. }
  assert (Hind : ∀ C' history', same_but_markers R history history' →
            evaluateFrom history' C' R N = evaluateFrom history C' R N).
  { intros C' history' Hsame. unfold evaluateFrom.
    pose proof (lookupRevision_markers R history history' Hsame) as Hm.
    destruct (lookupRevision history R), (lookupRevision history' R);
      simpl in Hm; try discriminate; [| done].
    injection Hm as ->. done. }
  split; [| split; [exact Hiff | split; [| split; [| split]]]].
  - intros Hlin Hst. unfold evaluate. rewrite Hst. by apply Hiff.
  - intros history' Hsame. split; [| by apply Hind].
    unfold evaluate. rewrite (current_stable_revision_markers R _ _ Hsame).
    destruct (current_stable_revision history); [by apply Hind | done].
  - intros Hst Hout. unfold evaluate, evaluateFrom. rewrite Hst.
    destruct (Z.leb_spec (C - R) 0); [done |].
    destruct (Z.ltb_spec N (C - R)); [done | lia].
  - intros Hst Hle. unfold evaluate, evaluateFrom. rewrite Hst.
    destruct (Z.leb_spec (C - R) 0); [done | lia].
  - repeat split.
Qed.

(** Scenario A and the documentation's example, window 3: from revision
    5, revisions 4 and 3 are within the window and revision 1 is not. *)
Example rollback_window_scenarioA :
  evaluate scenarioA 4 3 = WithinWindow
  ∧ evaluate scenarioA 3 3 = WithinWindow
  ∧ evaluate scenarioA 1 3 = OutsideWindow
  ∧ evaluate scenarioA 5 3 = MovingForward
  ∧ evaluate scenarioA 9 3 = MovingForward.
Proof. repeat split. Qed.

Lemma rollback_window_static_witness :
  eligible (evaluate scenarioB 3 3) = true
  ∧ (1 ≤ 5 - 3 ≤ 3)%Z ∧ exists_in scenarioB 3 ∧ unmarked scenarioB 3.
Proof.
  destruct (rollback_window_static scenarioB 5 3 3) as [Hiff _].
  split; [reflexivity |].
  apply Hiff; [| reflexivity | reflexivity].
  apply (bool_decide_unpack _). vm_compute. reflexivity.
Defined.

End RollbackWindowFacts.

(** * Further properties of the code *)

(** ** What the patch generator copies *)
Section PatchGeneratorMore.
Context `{Constants}.

Lemma prefix_append (p s : string) : String.prefix p (p +:+ s) = true.
Proof.
  induction p as [|a p IH]; [by destruct s |].
  change (String.prefix (String a p) (String a (p +:+ s)) = true).
  simpl. destruct (Ascii.ascii_dec a a); [exact IH | done].
Qed.

Lemma prefix_split (p key : string) :
  String.prefix p key = true → ∃ rest, key = p +:+ rest.
Proof.
  revert key. induction p as [|a p IH]; intros key.
  - intros _. by exists key.
  - destruct key as [|b key]; simpl; [done |].
    destruct (Ascii.ascii_dec a b) as [-> | ?]; [| done].
    intros [rest ->]%IH. by exists rest.
Qed.

(** X1.  A key is owned exactly when it is one of the three prefixes
    followed by anything, with no separator required after the prefix. *)
Theorem hasOwnedPrefix_iff (key : string) :
  hasOwnedPrefix key = true ↔
  ∃ rest, key = RolloutLabel +:+ rest
          ∨ key = "argo-rollouts.argoproj.io" +:+ rest
          ∨ key = "experiment.argoproj.io" +:+ rest.
Proof.
  unfold hasOwnedPrefix. rewrite !orb_true_iff. split.
  - intros [[Hp | Hp] | Hp]; apply prefix_split in Hp as [rest ->];
      exists rest; auto.
  - intros (rest & [-> | [-> | ->]]); rewrite prefix_append; auto.
Qed.

Lemma base_lookup (live : gmap string string) (extra k : string) :
  copyOwned live (copyKey extra live ∅) !! k =
  if hasOwnedPrefix k || bool_decide (k = extra) then live !! k else None.
Proof.
  rewrite copyOwned_lookup, copyKey_lookup, lookup_empty.
  destruct (live !! k) eqn:Hk, (hasOwnedPrefix k); simpl;
    repeat case_decide; repeat case_bool_decide; subst; rewrite ?Hk; done.
Qed.

Lemma copyKey_lookup_empty (key : string) (src : gmap string string) k :
  copyKey key src ∅ !! k = if bool_decide (k = key) then src !! k else None.
Proof.
  rewrite copyKey_lookup, lookup_empty, decide_bool_decide.
  case_bool_decide; [subst; by destruct (src !! key) | done].
Qed.

(** X2.  [generateBasePatch] panics exactly on a nil replica set or a
    replica set whose selector is nil; in every other case it returns a
    patch. *)
Theorem generateBasePatch_panics (rs : option appsv1.ReplicaSet) :
  (generateBasePatch rs = None ↔
   rs = None ∨ ∃ r, rs = Some r ∧ appsv1.Selector (appsv1.Spec r) = None)
  ∧ (is_Some (generateBasePatch rs) ↔
     ∃ r sel, rs = Some r ∧ appsv1.Selector (appsv1.Spec r) = Some sel).
Proof.
  split; [apply generateBasePatch_None_iff |]. split.
  - intros [patch Hp]. by apply (generateBasePatch_Some_inv rs patch).
  - intros (r & sel & -> & Hsel).
    destruct (generateBasePatch_Some r sel Hsel) as (patch & _ & Hp & _). eauto.
Qed.

(** X3.  The patch holds exactly the copied part of the live object: a
    live annotation is in the patch, with its live value, iff its key has
    an owned prefix or is the scale-down-deadline key; a live label iff its
    key has an owned prefix or is the unique-template-hash key; and of the
    match labels, the unique-template-hash one alone. *)
Theorem generateBasePatch_exact (rs : appsv1.ReplicaSet)
    (sel : metav1.LabelSelector) :
  appsv1.Selector (appsv1.Spec rs) = Some sel →
  ∃ patch sel',
    generateBasePatch (Some rs) = Some patch
    ∧ appsv1.Selector (appsv1.Spec patch) = Some sel'
    ∧ (∀ k, annotationCopied k →
         metav1.Annotations patch !! k = metav1.Annotations rs !! k)
    ∧ (∀ k, ¬ annotationCopied k → metav1.Annotations patch !! k = None)
    ∧ (∀ k, labelKeyAllowed k → metav1.Labels patch !! k = metav1.Labels rs !! k)
    ∧ (∀ k, ¬ labelKeyAllowed k → metav1.Labels patch !! k = None)
    ∧ metav1.MatchLabels sel' !! DefaultRolloutUniqueLabelKey
      = metav1.MatchLabels sel !! DefaultRolloutUniqueLabelKey
    ∧ (∀ k, k ≠ DefaultRolloutUniqueLabelKey → metav1.MatchLabels sel' !! k = None).
Proof.
  intros Hsel.
  destruct (generateBasePatch_Some rs sel Hsel)
    as (patch & sel' & Hp & Hs' & Han & Hla & Hml & _).
  exists patch, sel'. split; [done |]. split; [done |].
  rewrite Han, Hla, Hml. unfold annotationCopied, labelKeyAllowed.
  split; [| split; [| split; [| split; [| split]]]].
  - intros k Hk. rewrite base_lookup. destruct Hk as [-> | ->]; [done |].
    rewrite bool_decide_eq_true_2 by done. by rewrite orb_true_r.
  - intros k Hn. rewrite base_lookup.
    destruct (hasOwnedPrefix k) eqn:Ho; [by destruct Hn; left |].
    case_bool_decide; [by destruct Hn; right | done].
  - intros k Hk. rewrite base_lookup. destruct Hk as [-> | ->]; [done |].
    rewrite bool_decide_eq_true_2 by done. by rewrite orb_true_r.
  - intros k Hn. rewrite base_lookup.
    destruct (hasOwnedPrefix k) eqn:Ho; [by destruct Hn; left |].
    case_bool_decide; [by destruct Hn; right | done].
  - rewrite copyKey_lookup_empty. by rewrite bool_decide_eq_true_2.
  - intros k Hne. rewrite copyKey_lookup_empty. by rewrite bool_decide_eq_false_2.
Qed.

Lemma base_idempotent (live : gmap string string) (extra : string) :
  let copied := copyOwned live (copyKey extra live ∅) in
  copyOwned copied (copyKey extra copied ∅) = copied.
Proof.
  intros copied. subst copied. apply map_eq. intros k.
  rewrite !base_lookup. by destruct (hasOwnedPrefix k || bool_decide (k = extra)).
Qed.

Lemma copyKey_idempotent (key : string) (src : gmap string string) :
  copyKey key (copyKey key src ∅) ∅ = copyKey key src ∅.
Proof.
  apply map_eq. intros k. rewrite !copyKey_lookup_empty.
  by case_bool_decide.
Qed.

(** X4.  A patch is its own patch: generating the base patch of a base
    patch returns it unchanged. *)
Theorem generateBasePatch_idempotent (rs : option appsv1.ReplicaSet)
    (patch : appsv1.ReplicaSet) :
  generateBasePatch rs = Some patch →
  generateBasePatch (Some patch) = Some patch.
Proof.
  intros Hp.
  destruct (generateBasePatch_Some_inv rs patch Hp) as (r & sel & -> & Hsel).
  unfold generateBasePatch in Hp. simpl in Hp. rewrite Hsel in Hp. simpl in Hp.
  injection Hp as <-. unfold generateBasePatch. simpl.
  by rewrite !base_idempotent, copyKey_idempotent.
Qed.

Lemma base_agree (live1 live2 : gmap string string) (extra : string) :
  (∀ k, hasOwnedPrefix k = true ∨ k = extra → live1 !! k = live2 !! k) →
  copyOwned live1 (copyKey extra live1 ∅) = copyOwned live2 (copyKey extra live2 ∅).
Proof.
  intros Hag. apply map_eq. intros k. rewrite !base_lookup.
  destruct (hasOwnedPrefix k) eqn:Ho; simpl; [apply Hag; by left |].
  case_bool_decide; [apply Hag; by right | done].
Qed.

(** X5.  The patch depends on nothing but what it copies: two live replica
    sets with selectors, that agree on the replica count, the template
    labels and annotations, the copied annotations and labels and the
    unique-template-hash match label, have the same patch, whatever their
    names, foreign keys, other selector terms, pod specs and statuses. *)
Theorem generateBasePatch_reads_only_copied (rs1 rs2 : appsv1.ReplicaSet)
    (sel1 sel2 : metav1.LabelSelector) :
  appsv1.Selector (appsv1.Spec rs1) = Some sel1 →
  appsv1.Selector (appsv1.Spec rs2) = Some sel2 →
  samePatchInputs rs1 rs2 sel1 sel2 →
  generateBasePatch (Some rs1) = generateBasePatch (Some rs2).
Proof.
  intros Hs1 Hs2 (Hrep & Htl & Hta & Han & Hla & Hml).
  unfold generateBasePatch. simpl. rewrite Hs1, Hs2. simpl.
  rewrite Hrep, Htl, Hta.
  rewrite (base_agree (metav1.Annotations rs1) (metav1.Annotations rs2)) by exact Han.
  rewrite (base_agree (metav1.Labels rs1) (metav1.Labels rs2)) by exact Hla.
  replace (copyKey DefaultRolloutUniqueLabelKey (metav1.MatchLabels sel1) ∅)
    with (copyKey DefaultRolloutUniqueLabelKey (metav1.MatchLabels sel2) ∅);
    [done |].
  apply map_eq. intros k. rewrite !copyKey_lookup_empty.
  case_bool_decide; [by subst | done].
Qed.

End PatchGeneratorMore.

Lemma generateBasePatch_exact_witness :
  ∃ patch,
    generateBasePatch (H:=upstreamConstants) (Some liveRS) = Some patch
    ∧ metav1.Annotations patch !! "rollout.argoproj.io/revision" = Some "4"
    ∧ metav1.Annotations patch !! "kubectl.kubernetes.io/last-applied" = None.
Proof.
  destruct (generateBasePatch_exact (H:=upstreamConstants) liveRS
              Fixture.liveSelector eq_refl)
    as (patch & sel' & Hp & _ & Hin & Hout & _).
  exists patch. split; [exact Hp |]. split.
  - rewrite Hin; [reflexivity | left; reflexivity].
  - apply Hout. intros [Ho | Hk]; [vm_compute in Ho | vm_compute in Hk]; discriminate.
Defined.

Lemma generateBasePatch_idempotent_witness :
  ∃ patch,
    generateBasePatch (H:=upstreamConstants) (Some liveRS) = Some patch
    ∧ generateBasePatch (H:=upstreamConstants) (Some patch) = Some patch.
Proof.
  destruct (generateBasePatch (H:=upstreamConstants) (Some liveRS))
    as [patch|] eqn:Hp; [| vm_compute in Hp; discriminate].
  exists patch. split; [reflexivity |].
  exact (generateBasePatch_idempotent (H:=upstreamConstants) _ _ Hp).
Defined.

Lemma generateBasePatch_reads_only_copied_witness :
  generateBasePatch (H:=upstreamConstants) (Some liveRS)
  = generateBasePatch (H:=upstreamConstants) (Some Fixture.editedRS).
Proof.
  apply (generateBasePatch_reads_only_copied (H:=upstreamConstants)
           liveRS Fixture.editedRS Fixture.liveSelector Fixture.editedSelector
           eq_refl eq_refl).
  repeat split.
  - intros k Hk.
    change (metav1.Annotations liveRS)
      with (<["scale-down-deadline" := "2026-01-01T00:00:00Z"]>
              (<["rollout.argoproj.io/revision" := "4"]>
                 (<["kubectl.kubernetes.io/last-applied" := "x"]>
                    (∅ : gmap string string)))).
    change (metav1.Annotations Fixture.editedRS)
      with (<["scale-down-deadline" := "2026-01-01T00:00:00Z"]>
              (<["rollout.argoproj.io/revision" := "4"]>
                 (<["deployment.kubernetes.io/owner" := "y"]>
                    (∅ : gmap string string)))).
    rewrite !lookup_insert, !lookup_empty.
    repeat case_decide; try reflexivity; subst k;
      destruct Hk as [Ho | He]; vm_compute in Ho || vm_compute in He;
      discriminate.
  - intros k Hk.
    change (metav1.Labels liveRS)
      with (<["rollouts-pod-template-hash" := "7d9c"]>
              (<["team" := "web"]> (∅ : gmap string string))).
    change (metav1.Labels Fixture.editedRS)
      with (<["rollouts-pod-template-hash" := "7d9c"]>
              (<["team" := "platform"]> (∅ : gmap string string))).
    rewrite !lookup_insert, !lookup_empty.
    repeat case_decide; try reflexivity; subst k;
      destruct Hk as [Ho | He]; vm_compute in Ho || vm_compute in He;
      discriminate.
Defined.

(** ** What setFinalRSStatus sends and leaves behind *)
Section FinalStatusMore.
Context `{Constants} `{Cluster}.

Lemma setFinalRSStatus_panic (c : rolloutContext) (status : string) :
  generateBasePatch (newRS c) = None → setFinalRSStatus status c = None.
Proof.
  intros Hn. unfold setFinalRSStatus, generateRSFinalStatusPatch. run.
  by rewrite Hn.
Qed.

(** The whole run, by cases on the three answers. *)
Lemma setFinalRSStatus_cases (c : rolloutContext) (status : string)
    (rs basePatch : appsv1.ReplicaSet) :
  newRS c = Some rs →
  generateBasePatch (Some rs) = Some basePatch →
  let patchRS := setAnnotation ReplicaSetFinalStatusKey status basePatch in
  let '(data, _, cerr) :=
    CreateTwoWayMergePatch appsv1.ReplicaSet_zero patchRS appsv1.ReplicaSet_zero in
  let action :=
    mkPatchAction (metav1.Namespace patchRS) (metav1.Name patchRS)
                  StrategicMergePatchType data in
  let '(updatedRS, perr) := ReplicaSets_Patch (kubeclientset (base c)) action in
  let uerr := Indexer_Update (replicaSetInformer (base c)) updatedRS in
  let logged := set_log (log c ++ ["Patching replicaset with patch: " +:+ data]) c in
  let sent :=
    set_base (mkReconcilerBase (kubeclientset (base c) ++ [action])
                               (replicaSetInformer (base c))) logged in
  let updated :=
    set_base (mkReconcilerBase (kubeclientset (base c) ++ [action])
                               (replicaSetInformer (base c) ++ [updatedRS]))
             logged in
  setFinalRSStatus status c =
  match cerr, perr, uerr with
  | Some e, _, _ =>
      Some (Some (Errorf "error creating patch in setFinalRSStatus"
                         (metav1.Name rs) e), c)
  | None, Some e, _ =>
      Some (Some (Errorf "error patching replicaset in setFinalRSStatus"
                         (metav1.Name rs) e), sent)
  | None, None, Some e =>
      Some (Some (Errorf "error updating replicaset informer in setFinalRSStatus"
                         (metav1.Name rs) e), updated)
  | None, None, None => Some (None, updated)
  end.
Proof.
  intros Hrs Hb patchRS.
  pose proof (generateRSFinalStatusPatch_run status c basePatch) as Hgen.
  rewrite Hrs in Hgen. specialize (Hgen Hb). fold patchRS in Hgen.
  unfold setFinalRSStatus. cbv [bind]. rewrite Hgen. cbv beta iota.
  destruct (CreateTwoWayMergePatch _ patchRS _) as [[data modified] cerr].
  destruct cerr as [ce|].
  { destruct (ReplicaSets_Patch _ _) as [updatedRS perr].
    by rewrite (failWith_run _ _ _ rs Hrs). }
  run.
  destruct (ReplicaSets_Patch _ _) as [updatedRS perr].
  destruct perr as [pe|].
  { by rewrite (failWith_run _ _ _ rs) by exact Hrs. }
  simpl. destruct (Indexer_Update _ updatedRS) as [ue|]; [| reflexivity].
  by rewrite (failWith_run _ _ _ rs) by exact Hrs.
Qed.

(** X6.  [setFinalRSStatus] panics exactly when the new replica set is nil
    or has a nil selector; otherwise it returns, whatever the cluster
    answers. *)
Theorem setFinalRSStatus_panics (c : rolloutContext) (status : string) :
  setFinalRSStatus status c = None ↔
  newRS c = None
  ∨ ∃ rs, newRS c = Some rs ∧ appsv1.Selector (appsv1.Spec rs) = None.
Proof.
  rewrite <- generateBasePatch_None_iff. split; [| apply setFinalRSStatus_panic].
  intros Hnone. destruct (generateBasePatch (newRS c)) as [basePatch|] eqn:Hb; [| done].
  exfalso.
  destruct (generateBasePatch_Some_inv _ _ Hb) as (rs & sel & Hrs & _).
  rewrite Hrs in Hb.
  pose proof (setFinalRSStatus_cases c status rs basePatch Hrs Hb) as Hrun.
  simpl in Hrun.
  destruct (CreateTwoWayMergePatch _ _ _) as [[data modified] cerr].
  destruct (ReplicaSets_Patch _ _) as [updatedRS perr].
  rewrite Hnone in Hrun.
  destruct cerr; [discriminate |]. destruct perr; [discriminate |].
  destruct (Indexer_Update _ updatedRS); discriminate.
Qed.

(** X7.  When the patch is created, the store receives one strategic
    merge patch request carrying the created patch, addressed with the
    namespace and the name of the patch object; [generateBasePatch] leaves
    both empty, whatever the new replica set is called. *)
Theorem setFinalRSStatus_request (c : rolloutContext) (status : string)
    (rs : appsv1.ReplicaSet) (sel : metav1.LabelSelector) :
  newRS c = Some rs →
  appsv1.Selector (appsv1.Spec rs) = Some sel →
  ∃ patchRS,
    generateRSFinalStatusPatch status c = Some (patchRS, c)
    ∧ ∀ data modified,
        CreateTwoWayMergePatch appsv1.ReplicaSet_zero patchRS
                               appsv1.ReplicaSet_zero = (data, modified, None) →
        ∃ r c',
          setFinalRSStatus status c = Some (r, c')
          ∧ kubeclientset (base c') =
            (kubeclientset (base c)
             ++ [mkPatchAction "" "" StrategicMergePatchType data])%list.
Proof.
  intros Hrs Hsel.
  destruct (generateBasePatch_Some rs sel Hsel)
    as (basePatch & sel' & Hb & _ & _ & _ & _ & _ & _ & _ & _ & Hmeta & _).
  exists (setAnnotation ReplicaSetFinalStatusKey status basePatch).
  split; [apply generateRSFinalStatusPatch_run; by rewrite Hrs |].
  intros data modified Hc.
  pose proof (setFinalRSStatus_cases c status rs basePatch Hrs Hb) as Hrun.
  simpl in Hrun. rewrite Hc in Hrun.
  injection Hmeta as Hname Hns _ _ _ _ _. rewrite Hname, Hns in Hrun.
  destruct (ReplicaSets_Patch _ _) as [updatedRS perr].
  destruct perr; [| destruct (Indexer_Update _ updatedRS)];
    rewrite Hrun; eexists _, _; (split; [reflexivity |]); reflexivity.
Qed.

(** X8.  A call that returns changes nothing in the context but the
    requests recorded for the cluster and the log: the rollout, the
    working status, the replica sets, the analysis runs and the
    experiments are as before.  The log gains one line, the patch, when
    the patch was created, and none otherwise. *)
Theorem setFinalRSStatus_frame (c c' : rolloutContext) (status : string)
    (r : option error) :
  setFinalRSStatus status c = Some (r, c') →
  sameButClusterAndLog c c'
  ∧ ∃ patchRS,
      generateRSFinalStatusPatch status c = Some (patchRS, c)
      ∧ let '(data, _, cerr) :=
          CreateTwoWayMergePatch appsv1.ReplicaSet_zero patchRS
                                 appsv1.ReplicaSet_zero in
        log c' =
        (log c ++ if cerr is None
                  then ["Patching replicaset with patch: " +:+ data] else [])%list.
Proof.
  intros Hret.
  destruct (generateBasePatch (newRS c)) as [basePatch|] eqn:Hb;
    [| by rewrite (setFinalRSStatus_panic c status Hb) in Hret].
  destruct (generateBasePatch_Some_inv _ _ Hb) as (rs & sel & Hrs & _).
  pose proof (generateRSFinalStatusPatch_run status c basePatch Hb) as Hgen.
  rewrite Hrs in Hb.
  pose proof (setFinalRSStatus_cases c status rs basePatch Hrs Hb) as Hrun.
  simpl in Hrun. unfold sameButClusterAndLog.
  assert (Hc : c = set_log (log c) (set_base (base c) c)) by by destruct c.
  destruct (CreateTwoWayMergePatch _ _ _) as [[data modified] cerr] eqn:Hcreate.
  destruct (ReplicaSets_Patch _ _) as [updatedRS perr].
  rewrite Hret in Hrun.
  assert (Hlog : sameButClusterAndLog c c' ∧
            log c' = (log c ++ if cerr is None
                               then ["Patching replicaset with patch: " +:+ data]
                               else [])%list).
  { destruct cerr; [injection Hrun as _ ->; by rewrite app_nil_r |].
    destruct perr; [by injection Hrun as _ -> |].
    destruct (Indexer_Update _ updatedRS); by injection Hrun as _ ->. }
  destruct Hlog as [Hsame Hlog]. split; [exact Hsame |].
  eexists. split; [exact Hgen |]. by rewrite Hcreate.
Qed.

End FinalStatusMore.

Lemma setFinalRSStatus_request_witness :
  ∃ r c',
    setFinalRSStatus (H:=upstreamConstants) (H0:=Fixture.refusingCluster)
      "aborted" Fixture.context = Some (r, c')
    ∧ kubeclientset (base c')
      = [mkPatchAction "" "" StrategicMergePatchType "{}"].
Proof.
  destruct (setFinalRSStatus_request (H:=upstreamConstants)
              (H0:=Fixture.refusingCluster) Fixture.context "aborted"
              liveRS Fixture.liveSelector eq_refl eq_refl)
    as (patchRS & _ & Hsend).
  exact (Hsend "{}" true eq_refl).
Defined.

Lemma setFinalRSStatus_frame_witness :
  ∃ r c',
    setFinalRSStatus (H:=upstreamConstants) (H0:=Fixture.refusingCluster)
      "aborted" Fixture.context = Some (r, c')
    ∧ sameButClusterAndLog Fixture.context c'
    ∧ newStatus c' = Sample.status.
Proof.
  destruct (setFinalRSStatus (H:=upstreamConstants) (H0:=Fixture.refusingCluster)
              "aborted" Fixture.context) as [[r c']|] eqn:Hrun;
    [| vm_compute in Hrun; discriminate].
  exists r, c'. split; [reflexivity |].
  destruct (setFinalRSStatus_frame (H:=upstreamConstants)
              (H0:=Fixture.refusingCluster) Fixture.context c' "aborted" r Hrun)
    as [Hsame _].
  split; [exact Hsame |]. rewrite Hsame. reflexivity.
Defined.

(** ** The setters, alone and together *)
Section SettersMore.

(** The line [SetCurrentExperiment] logs when it rescues. *)
Local Abbreviation rescued ex :=
  ("Rescued " +:+ metav1.Name (ex : v1alpha1.Experiment.t)
   +:+ " from inadvertent termination").

Local Abbreviation named ex :=
  (λ otherEx : v1alpha1.Experiment.t,
     metav1.Name otherEx = metav1.Name (ex : v1alpha1.Experiment.t)).

Local Abbreviation withCurrent ex c :=
  (set_newStatus
     (set_Canary
        (set_CurrentExperiment (metav1.Name (ex : v1alpha1.Experiment.t))
           (v1alpha1.RolloutStatus.Canary (newStatus c)))
        (newStatus c))
     (set_currentEx (Some ex) c)).

Lemma SetCurrentExperiment_run (c : rolloutContext) (ex : v1alpha1.Experiment.t) :
  SetCurrentExperiment (Some ex) c =
  Some (tt,
        match list_find (named ex) (otherExs c) with
        | Some (i, _) =>
            set_otherExs (removeAt i (otherExs c))
              (set_log (log c ++ [rescued ex]) (withCurrent ex c))
        | None => withCurrent ex c
        end).
Proof.
  unfold SetCurrentExperiment. run.
  by destruct (list_find _ (otherExs c)) as [[i x]|].
Qed.

Lemma removeAt_sublist {A : Type} (i : nat) (l : list A) :
  removeAt i l `sublist_of` l.
Proof. unfold removeAt. rewrite <- delete_take_drop. apply sublist_delete. Qed.

(** X9.  [SetCurrentExperiment] takes at most one experiment out of the
    other set and keeps the others in their order; it logs the rescue
    line exactly when it took one out; beyond that it writes the current
    experiment and its name in the canary status, and nothing else. *)
Theorem SetCurrentExperiment_removes_at_most_one
    (c : rolloutContext) (ex : v1alpha1.Experiment.t) :
  ∃ c',
    SetCurrentExperiment (Some ex) c = Some (tt, c')
    ∧ otherExs c' `sublist_of` otherExs c
    ∧ ((otherExs c' = otherExs c ∧ log c' = log c)
       ∨ (S (length (otherExs c')) = length (otherExs c)
          ∧ log c' = (log c ++ [rescued ex])%list))
    ∧ c' = set_otherExs (otherExs c') (set_log (log c') (withCurrent ex c)).
Proof.
  rewrite SetCurrentExperiment_run.
  destruct (list_find _ (otherExs c)) as [[i x]|] eqn:Hfind; eexists;
    (split; [reflexivity |]); simpl.
  - apply list_find_Some in Hfind as (Hi & _).
    split; [apply removeAt_sublist |]. split; [| reflexivity].
    right. split; [by apply (removeAt_length _ _ x) | reflexivity].
  - split; [reflexivity |]. split; [by left | by destruct c].
Qed.

(** X10.  With no two other experiments of one name, a second
    [SetCurrentExperiment] of the same experiment changes nothing: no
    further experiment is removed and no further line is logged. *)
Theorem SetCurrentExperiment_idempotent
    (c : rolloutContext) (ex : v1alpha1.Experiment.t) :
  NoDup ((λ e : v1alpha1.Experiment.t, metav1.Name e) <$> otherExs c) →
  (SetCurrentExperiment (Some ex) ;; SetCurrentExperiment (Some ex))%go c
  = SetCurrentExperiment (Some ex) c.
Proof.
  intros Hnd. cbv [bind]. rewrite SetCurrentExperiment_run.
  set (c1 := match list_find _ (otherExs c) with Some _ => _ | None => _ end).
  rewrite SetCurrentExperiment_run.
  assert (Hgone : list_find (named ex) (otherExs c1) = None).
  { apply list_find_None, Forall_forall. intros e He. subst c1.
    destruct (list_find _ (otherExs c)) as [[i x]|] eqn:Hfind; simpl in He.
    - apply list_find_Some in Hfind as (Hi & Hx & _). rewrite <- Hx.
      by apply (removeAt_NoDup (λ e : v1alpha1.Experiment.t, metav1.Name e)
                  (otherExs c) i x).
    - apply list_find_None in Hfind. rewrite Forall_forall in Hfind.
      by apply Hfind. }
  rewrite Hgone. subst c1.
  by destruct (list_find _ (otherExs c)) as [[i x]|].
Qed.

Local Abbreviation background s :=
  (v1alpha1.CanaryStatus.CurrentBackgroundAnalysisRunStatus
     (v1alpha1.RolloutStatus.Canary s)).
Local Abbreviation step s :=
  (v1alpha1.CanaryStatus.CurrentStepAnalysisRunStatus
     (v1alpha1.RolloutStatus.Canary s)).
Local Abbreviation prePromotion s :=
  (v1alpha1.BlueGreenStatus.PrePromotionAnalysisRunStatus
     (v1alpha1.RolloutStatus.BlueGreen s)).
Local Abbreviation postPromotion s :=
  (v1alpha1.BlueGreenStatus.PostPromotionAnalysisRunStatus
     (v1alpha1.RolloutStatus.BlueGreen s)).
Local Abbreviation strategyOf c :=
  (v1alpha1.RolloutSpec.Strategy (v1alpha1.Rollout.Spec (rollout c))).

Local Ltac by_cases currARs c :=
  unfold SetCurrentAnalysisRuns; run;
  destruct currARs as [prePromo postPromo stepAr backgroundAr]; simpl;
  let Hcan := fresh "Hcan" in
  let Hbg := fresh "Hbg" in
  destruct (v1alpha1.RolloutStrategy.Canary (strategyOf c)) as [?|] eqn:Hcan;
    [destruct backgroundAr, stepAr
    | destruct (v1alpha1.RolloutStrategy.BlueGreen (strategyOf c)) as [?|] eqn:Hbg;
      [destruct prePromo, postPromo |]];
  simpl; rewrite ?Hcan, ?Hbg; simpl.

(** X11.  The canary strategy is looked at first.  When it is configured,
    each non-nil canary slot is projected to its name, phase and message
    and the blue-green status is left alone, also when blue-green is
    configured as well and its slots are set.  When only blue-green is
    configured, each non-nil blue-green slot is projected and the canary
    status is left alone. *)
Theorem SetCurrentAnalysisRuns_strategy
    (c : rolloutContext) (currARs : analysisutil.CurrentAnalysisRuns) :
  ∃ c',
    SetCurrentAnalysisRuns currARs c = Some (tt, c')
    ∧ (is_Some (v1alpha1.RolloutStrategy.Canary (strategyOf c)) →
         v1alpha1.RolloutStatus.BlueGreen (newStatus c')
         = v1alpha1.RolloutStatus.BlueGreen (newStatus c)
         ∧ (∀ ar, analysisutil.CanaryBackground currARs = Some ar →
              background (newStatus c') = statusOf ar)
         ∧ (∀ ar, analysisutil.CanaryStep currARs = Some ar →
              step (newStatus c') = statusOf ar))
    ∧ (v1alpha1.RolloutStrategy.Canary (strategyOf c) = None →
       is_Some (v1alpha1.RolloutStrategy.BlueGreen (strategyOf c)) →
         v1alpha1.RolloutStatus.Canary (newStatus c')
         = v1alpha1.RolloutStatus.Canary (newStatus c)
         ∧ (∀ ar, analysisutil.BlueGreenPrePromotion currARs = Some ar →
              prePromotion (newStatus c') = statusOf ar)
         ∧ (∀ ar, analysisutil.BlueGreenPostPromotion currARs = Some ar →
              postPromotion (newStatus c') = statusOf ar)).
Proof.
  by_cases currARs c; eexists; (split; [reflexivity |]); simpl;
    (split; [intros Hc | intros Hc Hb]);
    try (by destruct Hc); try (by destruct Hb); try discriminate;
    repeat split; try done; by intros ? [= <-].
Qed.

(** X12.  Of the working status, [SetCurrentAnalysisRuns] writes the four
    analysis sub-fields only: the abort flag, the pause conditions, the
    step index, the hashes, the restart time, the current experiment and
    the blue-green selectors stay; and of the context, only the current
    runs and the working status change. *)
Theorem SetCurrentAnalysisRuns_frame
    (c : rolloutContext) (currARs : analysisutil.CurrentAnalysisRuns) :
  ∃ c',
    SetCurrentAnalysisRuns currARs c = Some (tt, c')
    ∧ c' = set_newStatus (newStatus c') (set_currentArs currARs c)
    ∧ newStatus c' =
      set_BlueGreen
        (set_PostPromotionAnalysisRunStatus (postPromotion (newStatus c'))
           (set_PrePromotionAnalysisRunStatus (prePromotion (newStatus c'))
              (v1alpha1.RolloutStatus.BlueGreen (newStatus c))))
        (set_Canary
           (set_CurrentStepAnalysisRunStatus (step (newStatus c'))
              (set_CurrentBackgroundAnalysisRunStatus (background (newStatus c'))
                 (v1alpha1.RolloutStatus.Canary (newStatus c))))
           (newStatus c)).
Proof.
  by_cases currARs c; eexists; (split; [reflexivity |]); simpl;
    (split; [reflexivity |]);
    destruct c as [? ? ? ? ? ? ? ? ? ? ? ? ? [? ? ? ? ? ? ? [? ? ?] [? ? ? ?]] ? ? ?];
    reflexivity.
Qed.

(** X13.  Setting the same current runs twice is setting them once. *)
Theorem SetCurrentAnalysisRuns_idempotent
    (c : rolloutContext) (currARs : analysisutil.CurrentAnalysisRuns) :
  (SetCurrentAnalysisRuns currARs ;; SetCurrentAnalysisRuns currARs)%go c
  = SetCurrentAnalysisRuns currARs c.
Proof. by_cases currARs c; reflexivity. Qed.

(** X14.  The three setters write disjoint fields and can be called in
    any order: each pair commutes, the panic of a nil experiment
    included. *)
Theorem setters_commute (c : rolloutContext)
    (currARs : analysisutil.CurrentAnalysisRuns)
    (ex : option v1alpha1.Experiment.t) :
  (SetCurrentExperiment ex ;; SetCurrentAnalysisRuns currARs)%go c
  = (SetCurrentAnalysisRuns currARs ;; SetCurrentExperiment ex)%go c
  ∧ (SetRestartedAt ;; SetCurrentAnalysisRuns currARs)%go c
    = (SetCurrentAnalysisRuns currARs ;; SetRestartedAt)%go c
  ∧ (SetRestartedAt ;; SetCurrentExperiment ex)%go c
    = (SetCurrentExperiment ex ;; SetRestartedAt)%go c.
Proof.
  split; [| split].
  - destruct ex as [ex|].
    + cbv [bind]. rewrite SetCurrentExperiment_run.
      destruct (list_find _ (otherExs c)) as [[i x]|] eqn:Hfind;
        by_cases currARs c; rewrite SetCurrentExperiment_run; simpl;
        rewrite Hfind; reflexivity.
    + by_cases currARs c; reflexivity.
  - unfold SetRestartedAt. by_cases currARs c; reflexivity.
  - destruct ex as [ex|]; [| reflexivity].
    cbv [bind]. rewrite SetCurrentExperiment_run. unfold SetRestartedAt, modify.
    rewrite SetCurrentExperiment_run. simpl.
    by destruct (list_find _ (otherExs c)) as [[i x]|].
Qed.

End SettersMore.

Lemma SetCurrentExperiment_idempotent_witness :
  (SetCurrentExperiment (Some (Sample.experiment "web-exp-1")) ;;
   SetCurrentExperiment (Some (Sample.experiment "web-exp-1")))%go
    Sample.canaryContext
  = SetCurrentExperiment (Some (Sample.experiment "web-exp-1")) Sample.canaryContext.
Proof.
  apply SetCurrentExperiment_idempotent.
  apply (bool_decide_unpack _). vm_compute. reflexivity.
Defined.

Lemma SetCurrentAnalysisRuns_strategy_witness :
  ∃ c',
    SetCurrentAnalysisRuns
      (analysisutil.mkCurrentAnalysisRuns
         (Some (Sample.run "web-pre-1" "Successful")) None
         (Some (Sample.run "web-step-2" "Pending")) None)
      Fixture.bothContext = Some (tt, c')
    ∧ v1alpha1.RolloutStatus.BlueGreen (newStatus c')
      = v1alpha1.BlueGreenStatus.mk "" "" None None
    ∧ v1alpha1.CanaryStatus.CurrentStepAnalysisRunStatus
        (v1alpha1.RolloutStatus.Canary (newStatus c'))
      = Some (v1alpha1.RolloutAnalysisRunStatus.mk "web-step-2" "Pending" "").
Proof.
  destruct (SetCurrentAnalysisRuns_strategy Fixture.bothContext
              (analysisutil.mkCurrentAnalysisRuns
                 (Some (Sample.run "web-pre-1" "Successful")) None
                 (Some (Sample.run "web-step-2" "Pending")) None))
    as (c' & Hrun & Hcanary & _).
  exists c'. split; [exact Hrun |].
  destruct Hcanary as (Hbg & _ & Hstep); [by eexists |].
  split; [rewrite Hbg; reflexivity |].
  exact (Hstep (Sample.run "web-step-2" "Pending") eq_refl).
Defined.

(** ** haltProgress and the other methods *)
Section HaltProgressMore.
Context `{Constants} `{Cluster}.

Lemma setFinalRSStatus_rollout (status : string) :
  preserves rollout (setFinalRSStatus status).
Proof.
  intros c r c' Hret.
  destruct (generateBasePatch (newRS c)) as [basePatch|] eqn:Hb;
    [| by rewrite (setFinalRSStatus_panic c status Hb) in Hret].
  destruct (generateBasePatch_Some_inv _ _ Hb) as (rs & sel & Hrs & _).
  rewrite Hrs in Hb.
  pose proof (setFinalRSStatus_cases c status rs basePatch Hrs Hb) as Hrun.
  simpl in Hrun.
  destruct (CreateTwoWayMergePatch _ _ _) as [[data modified] cerr].
  destruct (ReplicaSets_Patch _ _) as [updatedRS perr].
  rewrite Hret in Hrun.
  destruct cerr; [by injection Hrun as _ -> |].
  destruct perr; [by injection Hrun as _ -> |].
  destruct (Indexer_Update _ updatedRS); by injection Hrun as _ ->.
Qed.

(** X15.  [haltProgress] reads the rollout being reconciled, its pause
    flag and the pause conditions of its own status, never the working
    status: two contexts with the same rollout halt for the same reason,
    whatever their working status holds.  None of the other methods
    replaces the rollout, so none of them changes the answer. *)
Theorem haltProgress_reads_rollout
    (currARs : analysisutil.CurrentAnalysisRuns)
    (ex : option v1alpha1.Experiment.t) (status : string) :
  (∀ c c', rollout c' = rollout c →
     fst <$> haltProgress c' = fst <$> haltProgress c)
  ∧ (∀ c st, fst <$> haltProgress (set_newStatus st c) = fst <$> haltProgress c)
  ∧ preserves rollout (SetCurrentAnalysisRuns currARs)
  ∧ preserves rollout (SetCurrentExperiment ex)
  ∧ preserves rollout SetRestartedAt
  ∧ preserves rollout (generateRSFinalStatusPatch status)
  ∧ preserves rollout (setFinalRSStatus status).
Proof.
  assert (Hread : ∀ c c', rollout c' = rollout c →
            fst <$> haltProgress c' = fst <$> haltProgress c).
  { intros c c' Hr. unfold haltProgress. run. rewrite Hr.
    destruct (v1alpha1.RolloutSpec.Paused _); [done |].
    by destruct (getPauseCondition _ _). }
  split; [exact Hread |]. split; [intros c st; by apply Hread |].
  split; [| split; [| split; [| split]]].
  - intros c r c'. unfold SetCurrentAnalysisRuns. run.
    destruct currARs as [prePromo postPromo stepAr backgroundAr]. simpl.
    destruct (v1alpha1.RolloutStrategy.Canary _);
      [destruct backgroundAr, stepAr
      | destruct (v1alpha1.RolloutStrategy.BlueGreen _);
        [destruct prePromo, postPromo |]];
      simpl; by intros [= _ <-].
  - intros c r c'. destruct ex as [e|]; [| done].
    unfold SetCurrentExperiment. run.
    destruct (list_find _ (otherExs c)) as [[i x]|]; simpl; by intros [= _ <-].
  - intros c r c'. unfold SetRestartedAt. run. by intros [= _ <-].
  - intros c r c'. unfold generateRSFinalStatusPatch. run.
    destruct (generateBasePatch (newRS c)); [| done]. by intros [= _ <-].
  - apply setFinalRSStatus_rollout.
Qed.

End HaltProgressMore.

(** ** The dispatcher, on its other paths *)
Section DispatcherMore.
Variables (check : M (option error)) (scaling : M (bool * option error)).
Variables (sync blueGreen canary : M (option error)).

Local Abbreviation K := (mkCollaborators check scaling sync blueGreen canary).

(** X16.  [reconcile] stops at the first error: an error of
    [checkPausedConditions] is returned before anything else runs, and an
    error of [isScalingEvent] is returned before [syncReplicasOnly] or a
    strategy branch runs, also when it comes with the answer true. *)
Theorem reconcile_stops_at_first_error (c c1 c2 : rolloutContext)
    (e : error) (b : bool) :
  (check c = Some (Some e, c1) →
     ∀ scaling' sync' blueGreen' canary',
       reconcile (H:=mkCollaborators check scaling' sync' blueGreen' canary') c
       = Some (Some e, c1))
  ∧ (check c = Some (None, c1) → scaling c1 = Some ((b, Some e), c2) →
     ∀ sync' blueGreen' canary',
       reconcile (H:=mkCollaborators check scaling sync' blueGreen' canary') c
       = Some (Some e, c2)).
Proof.
  split.
  - intros Hc ? ? ? ?. unfold reconcile. run. by rewrite Hc.
  - intros Hc Hs ? ? ?. unfold reconcile. run. by rewrite Hc, Hs.
Qed.

(** X17.  Without a scaling event the strategy of the rollout, as the
    context holds it after the two checks, picks the branch: blue-green
    whenever it is configured, also next to canary, and canary in every
    other case, also when canary is not configured; the other branch and
    [syncReplicasOnly] do not run. *)
Theorem reconcile_strategy_precedence (c c1 c2 : rolloutContext) :
  check c = Some (None, c1) →
  scaling c1 = Some ((false, None), c2) →
  let strategy :=
    v1alpha1.RolloutSpec.Strategy (v1alpha1.Rollout.Spec (rollout c2)) in
  (is_Some (v1alpha1.RolloutStrategy.BlueGreen strategy) →
     ∀ sync' canary',
       reconcile (H:=mkCollaborators check scaling sync' blueGreen canary') c
       = blueGreen c2)
  ∧ (v1alpha1.RolloutStrategy.BlueGreen strategy = None →
     ∀ sync' blueGreen',
       reconcile (H:=mkCollaborators check scaling sync' blueGreen' canary) c
       = canary c2).
Proof.
  intros Hc Hs strategy. subst strategy. split.
  - intros [bg Hbg] ? ?. unfold reconcile. run. by rewrite Hc, Hs, Hbg.
  - intros Hbg ? ?. unfold reconcile. run. by rewrite Hc, Hs, Hbg.
Qed.

Lemma reconcile_unfold (c : rolloutContext) :
  reconcile (H:=K) c =
  match check c with
  | None => None
  | Some (Some e, c1) => Some (Some e, c1)
  | Some (None, c1) =>
      match scaling c1 with
      | None => None
      | Some ((_, Some e), c2) => Some (Some e, c2)
      | Some ((true, None), c2) => sync c2
      | Some ((false, None), c2) =>
          if v1alpha1.RolloutStrategy.BlueGreen
               (v1alpha1.RolloutSpec.Strategy
                  (v1alpha1.Rollout.Spec (rollout c2))) is Some _
          then blueGreen c2 else canary c2
      end
  end.
Proof.
  unfold reconcile. run.
  destruct (check c) as [[[e|] c1]|]; try reflexivity.
  destruct (scaling c1) as [[[[] [e|]] c2]|]; try reflexivity.
  by destruct (v1alpha1.RolloutStrategy.BlueGreen _).
Qed.

(** X18.  [reconcile] writes nothing itself and panics only where a
    method it calls panics: whatever the five methods leave unchanged is
    unchanged after [reconcile], on every path, and when none of the five
    can panic, [reconcile] returns. *)
Theorem reconcile_frame {A : Type} (f : rolloutContext → A) :
  (preserves f check → preserves f scaling → preserves f sync →
   preserves f blueGreen → preserves f canary →
   preserves f (reconcile (H:=K)))
  ∧ ((∀ c, is_Some (check c)) → (∀ c, is_Some (scaling c)) →
     (∀ c, is_Some (sync c)) → (∀ c, is_Some (blueGreen c)) →
     (∀ c, is_Some (canary c)) →
     ∀ c, is_Some (reconcile (H:=K) c)).
Proof.
  split.
  - intros Pc Ps Py Pb Pa c r c'. rewrite reconcile_unfold.
    destruct (check c) as [[[e|] c1]|] eqn:Hc; [| | done].
    { intros Hr. injection Hr as _ <-. exact (Pc _ _ _ Hc). }
    destruct (scaling c1) as [[[b err] c2]|] eqn:Hs; [| done].
    assert (Hf : f c2 = f c) by (rewrite (Ps _ _ _ Hs); exact (Pc _ _ _ Hc)).
    destruct err as [e|]; [destruct b; intros Hr; by injection Hr as _ <- |].
    destruct b; [intros Hr; by rewrite (Py _ _ _ Hr) |].
    destruct (v1alpha1.RolloutStrategy.BlueGreen _); intros Hr;
      [by rewrite (Pb _ _ _ Hr) | by rewrite (Pa _ _ _ Hr)].
  - intros Tc Ts Ty Tb Ta c. rewrite reconcile_unfold.
    destruct (Tc c) as [[[e|] c1] ->]; [done |].
    destruct (Ts c1) as [[[b err] c2] ->].
    destruct err as [e|]; [by destruct b |].
    destruct b; [apply Ty |].
    destruct (v1alpha1.RolloutStrategy.BlueGreen _); [apply Tb | apply Ta].
Qed.

End DispatcherMore.

Lemma reconcile_stops_at_first_error_witness :
  reconcile (H:=mkCollaborators (ret None)
                  (ret (true, Some (errorString "list replicasets: timeout")))
                  panic panic panic)
    Sample.canaryContext
  = Some (Some (errorString "list replicasets: timeout"), Sample.canaryContext).
Proof.
  destruct (reconcile_stops_at_first_error (ret None)
              (ret (true, Some (errorString "list replicasets: timeout")))
              Sample.canaryContext Sample.canaryContext Sample.canaryContext
              (errorString "list replicasets: timeout") true) as [_ Hscaling].
  exact (Hscaling eq_refl eq_refl panic panic panic).
Defined.

(** With both strategies configured, blue-green runs. *)
Lemma reconcile_strategy_precedence_witness :
  ∃ c',
    reconcile (H:=mkCollaborators (ret None) (ret (false, None)) panic
                    (Fixture.enter "rolloutBlueGreen") panic)
      Fixture.bothContext = Some (None, c')
    ∧ log c' = ["rolloutBlueGreen"].
Proof.
  destruct (reconcile_strategy_precedence (ret None) (ret (false, None))
              (Fixture.enter "rolloutBlueGreen") panic
              Fixture.bothContext Fixture.bothContext Fixture.bothContext
              eq_refl eq_refl) as [Hbg _].
  rewrite (Hbg ltac:(by eexists) panic panic).
  eexists. split; reflexivity.
Defined.

Lemma reconcile_frame_witness :
  ∃ r c',
    reconcile (H:=mkCollaborators (ret None) (ret (false, None)) (ret None)
                    (Fixture.enter "rolloutBlueGreen")
                    (Fixture.enter "rolloutCanary"))
      Sample.canaryContext = Some (r, c')
    ∧ newStatus c' = newStatus Sample.canaryContext.
Proof.
  destruct (reconcile_frame (ret None) (ret (false, None)) (ret None)
              (Fixture.enter "rolloutBlueGreen") (Fixture.enter "rolloutCanary")
              newStatus) as [Hframe Htotal].
  destruct (Htotal ltac:(by eexists) ltac:(by eexists) ltac:(by eexists)
                   ltac:(by eexists) ltac:(by eexists) Sample.canaryContext)
    as [[r c'] Hrun].
  exists r, c'. split; [exact Hrun |].
  apply (Hframe ltac:(by intros c r0 c0 [= _ <-])
                ltac:(by intros c r0 c0 [= _ <-])
                ltac:(by intros c r0 c0 [= _ <-])
                ltac:(by intros c r0 c0 [= _ <-])
                ltac:(by intros c r0 c0 [= _ <-]) _ _ _ Hrun).
Defined.

(** After the current runs are set, a paused rollout still halts for the
    user's pause. *)
Lemma haltProgress_reads_rollout_witness :
  ∃ c',
    SetCurrentAnalysisRuns
      (analysisutil.mkCurrentAnalysisRuns None None
         (Some (Sample.run "web-step-2" "Inconclusive")) None)
      (Sample.contextOf (Sample.rolloutWith true Sample.canary []))
    = Some (tt, c')
    ∧ fst <$> haltProgress (H:=upstreamConstants) c' = Some "user paused".
Proof.
  destruct (haltProgress_reads_rollout (H:=upstreamConstants) (H0:=Sample.cluster)
              (analysisutil.mkCurrentAnalysisRuns None None
                 (Some (Sample.run "web-step-2" "Inconclusive")) None)
              None "success") as (Hread & _ & Hset & _).
  destruct (SetCurrentAnalysisRuns _
              (Sample.contextOf (Sample.rolloutWith true Sample.canary [])))
    as [[[] c']|] eqn:Hrun; [| vm_compute in Hrun; discriminate].
  exists c'. split; [reflexivity |].
  rewrite (Hread (Sample.contextOf (Sample.rolloutWith true Sample.canary []))).
  - reflexivity.
  - exact (Hset _ _ _ Hrun).
Defined.
